(** * bambulabs_api: the MQTT state synchroniser and command dispatcher

    A shallow embedding of [src/bambulabs_api/mqtt_client.py] and of the
    part of [src/bambulabs_api/client.py] that drives it, with the
    properties of the snapshot merge, the refresh throttle, the command
    builders, the G-code validator and the AMS parser.

    Conventions of the embedding:
    - a Python object that travels through the client (a decoded JSON
      report, a command document, a dynamically typed argument) is a
      [value];
    - a method of [PrinterMQTTClient] is a computation [M A]: it takes the
      client object, returns it possibly mutated, together with either a
      result or the exception that was raised;
    - the wall clock is an argument ([now], in whole seconds, the result of
      [int(datetime.datetime.now().timestamp())]);
    - the paho client is the [transport] record: whether it is connected,
      what was handed to it, and what [is_published()] answers for each
      message;
    - [logging] calls have no effect on any of this and are left out. *)

From Stdlib Require Import ZArith List String Ascii Bool Lia Floats DecimalString.
From stdpp Require Import base option gmap strings list.

Set Warnings "-register-all".
Open Scope string_scope.
Open Scope list_scope.
Open Scope Z_scope.

(* ================================================================== *)
(** * Python values *)
(* ================================================================== *)

(** The exceptions the modelled code can raise. [Exception_] is the bare
    [Exception(msg)] of the strict-mode guard. *)
Inductive exn : Type :=
| TypeError
| ValueError
| AttributeError
| ZeroDivisionError
| OverflowError
| KeyError
| JSONDecodeError
| Exception_ (msg : string).

(** The outcome of an expression that may raise. *)
Inductive outcome (A : Type) : Type :=
| Ok (a : A)
| Raise (e : exn).
Arguments Ok {A} a.
Arguments Raise {A} e.

Definition obind {A B} (o : outcome A) (k : A -> outcome B) : outcome B :=
  match o with
  | Ok a => k a
  | Raise e => Raise e
  end.

(** What [json.loads] can produce, which is also the shape of every
    document the client publishes.  The members of a [VDict] are kept in
    document order; a repeated key is resolved as [json.loads] resolves it
    (the last value wins, see [dict_lookup]). *)
Inductive value : Type :=
| VNone
| VBool (b : bool)
| VInt (z : Z)
| VFloat (f : float)
| VStr (s : string)
| VList (l : list value)
| VDict (kvs : list (string * value)).

(** [bool(v)]. *)
Definition truthy (v : value) : bool :=
  match v with
  | VNone => false
  | VBool b => b
  | VInt z => negb (Z.eqb z 0)
  | VFloat f => negb (PrimFloat.eqb f 0%float)
  | VStr s => negb (String.eqb s "")
  | VList l => match l with [] => false | _ => true end
  | VDict kvs => match kvs with [] => false | _ => true end
  end.

(** The value a key is bound to in a list of members: the last binding. *)
Fixpoint dict_lookup (kvs : list (string * value)) (k : string) : option value :=
  match kvs with
  | [] => None
  | (k', v) :: rest =>
      match dict_lookup rest k with
      | Some w => Some w
      | None => if String.eqb k' k then Some v else None
      end
  end.

(** The keys of a dict in iteration order: first occurrence, no repeats. *)
Fixpoint dict_keys (seen : list string) (kvs : list (string * value)) : list string :=
  match kvs with
  | [] => []
  | (k, _) :: rest =>
      if existsb (String.eqb k) seen then dict_keys seen rest
      else k :: dict_keys (k :: seen) rest
  end.

Fixpoint chars_of (s : string) : list value :=
  match s with
  | EmptyString => []
  | String c rest => VStr (String c EmptyString) :: chars_of rest
  end.

(** [iter(v)], run to the end: the elements of a list, the characters of a
    string, the keys of a dict; anything else is not iterable. *)
Definition py_iter (v : value) : outcome (list value) :=
  match v with
  | VList l => Ok l
  | VStr s => Ok (chars_of s)
  | VDict kvs => Ok (map VStr (dict_keys [] kvs))
  | _ => Raise TypeError
  end.

(** [v.get(k, default)]: only a dict has the method. *)
Definition py_get (v : value) (k : string) (dflt : value) : outcome value :=
  match v with
  | VDict kvs => Ok (default dflt (dict_lookup kvs k))
  | _ => Raise AttributeError
  end.

(** [k in v] for a string [k]: a key of a dict, an element of a list, a
    substring of a string. *)
Definition py_contains (k : string) (v : value) : outcome bool :=
  match v with
  | VDict kvs => Ok (bool_decide (is_Some (dict_lookup kvs k)))
  | VList l =>
      Ok (existsb (fun x => match x with VStr s => String.eqb s k | _ => false end) l)
  | VStr s => Ok (bool_decide (is_Some (String.index 0 k s)))
  | _ => Raise TypeError
  end.

(** [v[k]] for a string [k]: only a dict can be indexed by a string. *)
Definition py_getitem (v : value) (k : string) : outcome value :=
  match v with
  | VDict kvs =>
      match dict_lookup kvs k with
      | Some x => Ok x
      | None => Raise KeyError
      end
  | _ => Raise TypeError
  end.

(** [v == s] for a string literal [s]: only an equal string is equal. *)
Definition py_eq_str (v : value) (s : string) : bool :=
  match v with
  | VStr s' => String.eqb s' s
  | _ => false
  end.

(* ================================================================== *)
(** * The collaborators outside the two source files *)
(* ================================================================== *)

(** [mqtt_client.py] calls into the Python runtime ([json.loads], [int],
    [float]) and into three modules of the package that are not part of
    the verified sources ([states_info], [filament_info], [ams]).  What
    the code needs of the first two and of the runtime is an interface;
    every definition below is parametric in it. *)
Class Runtime : Type := {
  (** [json.loads(payload)] *)
  json_loads : string -> outcome value;
  (** [int(v)] and [float(v)] *)
  py_int : value -> outcome Z;
  py_float : value -> outcome float;
  (** [states_info.GcodeState]: the enum, its constructor call
      [GcodeState(v)], the two members the client compares with, and
      [==] on members. *)
  GcodeState : Type;
  GcodeState_call : value -> outcome GcodeState;
  PAUSE : GcodeState;
  RUNNING : GcodeState;
  GcodeState_eq : GcodeState -> GcodeState -> bool;
  (** [filament_info.FilamentTray] and its [from_dict] *)
  FilamentTray : Type;
  from_dict : value -> outcome FilamentTray;
}.

(** Modelled from the spec: [ams.AMS] and [ams.AMSHub] are not among the
    source files.  Section 3 describes a storage unit as humidity,
    temperature and a mapping from slot index to material slot, and the
    hub as a mapping from unit id to unit; [set_filament_tray] and
    [hub[id] = unit] bind an index. *)
Record AMS `{Runtime} : Type := mkAMS {
  humidity : Z;
  temperature : float;
  filament_trays : gmap Z FilamentTray;
}.

Definition AMS_new `{Runtime} (h : Z) (t : float) : AMS :=
  {| humidity := h; temperature := t; filament_trays := ∅ |}.

Definition set_filament_tray `{Runtime} (a : AMS) (tray_index : Z) (t : FilamentTray) : AMS :=
  {| humidity := humidity a; temperature := temperature a;
     filament_trays := <[tray_index := t]> (filament_trays a) |}.

(* ================================================================== *)
(** * The client object *)
(* ================================================================== *)

(** The paho client, as far as [PrinterMQTTClient] observes it.
    [acks n] is what [is_published()] answers, after
    [wait_for_publish()], for the [n]-th message handed over. *)
Record transport : Type := mkTransport {
  connected : bool;
  sent : list (string * value);
  acks : nat -> bool;
}.

(** The fields of [PrinterMQTTClient] that the modelled methods touch.
    [_data] holds the items of the snapshot dict whose key is a string
    (every key a report or an accessor can name); [_data_other] records
    whether the dict also holds a key that is not a string, which only
    matters for its emptiness. *)
Record PrinterMQTTClient `{Runtime} : Type := mkClient {
  _data : gmap string value;
  _data_other : bool;
  _last_update : Z;
  pushall_timeout : Z;
  strict : bool;
  command_topic : string;
  ams_hub : gmap Z AMS;
  _client : transport;
}.

Section Client.
Context `{RT : Runtime}.

(** A method: the object before, the object after, and a result or the
    exception that escaped. *)
Definition M (A : Type) : Type := PrinterMQTTClient -> outcome A * PrinterMQTTClient.

Definition ret {A} (a : A) : M A := fun st => (Ok a, st).
Definition raise {A} (e : exn) : M A := fun st => (Raise e, st).
Definition bind {A B} (m : M A) (k : A -> M B) : M B :=
  fun st =>
    match m st with
    | (Ok a, st') => k a st'
    | (Raise e, st') => (Raise e, st')
    end.
Definition lift {A} (o : outcome A) : M A := fun st => (o, st).
Definition gets {A} (f : PrinterMQTTClient -> A) : M A := fun st => (Ok (f st), st).
Definition modify (f : PrinterMQTTClient -> PrinterMQTTClient) : M unit :=
  fun st => (Ok tt, f st).

End Client.

Notation "'do' x <- m ; k" := (bind m (fun x => k))
  (at level 10, x name, m at level 100, k at level 200).
Notation "'run' m ; k" := (bind m (fun _ => k))
  (at level 10, m at level 100, k at level 200).

Section Methods.
Context `{RT : Runtime}.

Definition set_data (d : gmap string value) (o : bool) (st : PrinterMQTTClient) : PrinterMQTTClient :=
  {| _data := d; _data_other := o; _last_update := _last_update st;
     pushall_timeout := pushall_timeout st; strict := strict st;
     command_topic := command_topic st; ams_hub := ams_hub st;
     _client := _client st |}.

Definition set_last_update (t : Z) (st : PrinterMQTTClient) : PrinterMQTTClient :=
  {| _data := _data st; _data_other := _data_other st; _last_update := t;
     pushall_timeout := pushall_timeout st; strict := strict st;
     command_topic := command_topic st; ams_hub := ams_hub st;
     _client := _client st |}.

Definition set_ams_hub (h : gmap Z AMS) (st : PrinterMQTTClient) : PrinterMQTTClient :=
  {| _data := _data st; _data_other := _data_other st;
     _last_update := _last_update st;
     pushall_timeout := pushall_timeout st; strict := strict st;
     command_topic := command_topic st; ams_hub := h;
     _client := _client st |}.

Definition set_client (c : transport) (st : PrinterMQTTClient) : PrinterMQTTClient :=
  {| _data := _data st; _data_other := _data_other st;
     _last_update := _last_update st;
     pushall_timeout := pushall_timeout st; strict := strict st;
     command_topic := command_topic st; ams_hub := ams_hub st;
     _client := c |}.

(** [self._client.publish(topic, json.dumps(payload))]: the message is
    handed to the transport.  The document is recorded as it is; its wire
    form is [json.dumps] of it. *)
Definition client_publish (topic : string) (payload : value) (c : transport) : transport :=
  {| connected := connected c; sent := sent c ++ [(topic, payload)]; acks := acks c |}.

(** ** The snapshot *)

(** [bool(self._data)]: the dict holds an item. *)
Definition is_ready (st : PrinterMQTTClient) : bool :=
  negb (bool_decide (_data st = ∅)) || _data_other st.

Definition ready : M bool := gets is_ready.

(** [self._data[key] = val], as [dict.update] does it for one pair: a list
    or a dict cannot be a key. *)
Definition data_setitem (key val : value) : M unit :=
  match key with
  | VStr k => modify (fun st => set_data (<[k := val]> (_data st)) (_data_other st) st)
  | VList _ | VDict _ => raise TypeError
  | _ => modify (fun st => set_data (_data st) true st)
  end.

(** [dict.update] from an iterable of key/value pairs: each element must
    itself unpack to exactly two objects; what was stored before a bad
    element stays stored. *)
Fixpoint data_update_pairs (items : list value) : M unit :=
  match items with
  | [] => ret tt
  | item :: rest =>
      do kv <- lift (py_iter item);
      match kv with
      | [k; v] => run data_setitem k v; data_update_pairs rest
      | _ => raise ValueError
      end
  end.

(** [self._data |= other]. *)
Definition data_ior (other : value) : M unit :=
  match other with
  | VDict kvs =>
      modify (fun st =>
        set_data (foldl (fun d kv => <[kv.1 := kv.2]> d) (_data st) kvs)
                 (_data_other st) st)
  | _ => do items <- lift (py_iter other); data_update_pairs items
  end.

Definition manual_update (doc : value) : M unit :=
  do has_print <- lift (py_contains "print" doc);
  if has_print then
    do section <- lift (py_getitem doc "print");
    data_ior section
  else ret tt.

Definition _on_message (payload : string) : M unit :=
  do doc <- lift (json_loads payload);
  manual_update doc.

(** ** Publishing and the refresh throttle *)

Definition __publish_command (payload : value) : M bool :=
  fun st =>
    let c := _client st in
    if negb (connected c) then (Ok false, st)
    else (Ok (acks c (length (sent c))),
          set_client (client_publish (command_topic st) payload c) st).

Definition pushall_doc : value :=
  VDict [("pushing", VDict [("command", VStr "pushall")])].

Definition pushall : M bool := __publish_command pushall_doc.

Definition _update (now : Z) : M bool :=
  do last <- gets _last_update;
  do timeout <- gets pushall_timeout;
  if last + timeout >? now then ret false
  else run modify (set_last_update now); pushall.

(** The decorator [__ready]: the wrapped method runs unless the snapshot
    is empty and the client is strict. *)
Definition __ready {A} (func : M A) : M A :=
  run (do r <- ready;
       if negb r then
         do s <- gets strict;
         if s then raise (Exception_ "Printer not found") else ret tt
       else ret tt);
  func.

Definition __get (key : string) (dflt : value) (now : Z) : M value :=
  __ready (run _update now;
           do d <- gets _data;
           ret (default dflt (d !! key))).

End Methods.

(* ================================================================== *)
(** * Commands *)
(* ================================================================== *)

(** [str(z)] of an [int], as an f-string prints it. *)
Definition str_of_int (z : Z) : string :=
  DecimalString.NilZero.string_of_int (Z.to_int z).

Section Commands.
Context `{RT : Runtime}.

(** A structured command of the ["print"] domain. *)
Definition print_command (fields : list (string * value)) : value :=
  VDict [("print", VDict fields)].

(** ** Pause and resume *)

Definition get_printer_state (now : Z) : M GcodeState :=
  do v <- __get "gcode_state" (VInt (-1)) now;
  lift (GcodeState_call v).

Definition pause_doc : value := print_command [("command", VStr "pause")].
Definition resume_doc : value := print_command [("command", VStr "resume")].

Definition pause_print (now : Z) : M bool :=
  do s <- get_printer_state now;
  if GcodeState_eq s PAUSE then ret true
  else __publish_command pause_doc.

Definition resume_print (now : Z) : M bool :=
  do s <- get_printer_state now;
  if GcodeState_eq s RUNNING then ret true
  else __publish_command resume_doc.

(** ** Calibration *)

Definition calibration_bitmask
    (bed_levelling motor_noise_cancellation vibration_compensation : bool) : Z :=
  let bitmask := 0 in
  let bitmask := if bed_levelling then Z.lor bitmask (Z.shiftl 1 1) else bitmask in
  let bitmask := if vibration_compensation then Z.lor bitmask (Z.shiftl 1 2) else bitmask in
  let bitmask := if motor_noise_cancellation then Z.lor bitmask (Z.shiftl 1 3) else bitmask in
  bitmask.

Definition calibration_doc (bitmask : Z) : value :=
  print_command [("command", VStr "calibration"); ("option", VInt bitmask)].

Definition calibration
    (bed_levelling motor_noise_cancellation vibration_compensation : bool) : M bool :=
  __publish_command
    (calibration_doc
       (calibration_bitmask bed_levelling motor_noise_cancellation
                            vibration_compensation)).

(** ** Starting a print *)

(** The defaults in the signature of [start_print_3mf]. *)
Definition default_bed_leveling : value := VBool true.
Definition default_flow_calibration : value := VBool false.
Definition default_vibration_calibration : value := VBool false.
Definition default_bed_type : value := VStr "textured_plate".
Definition default_use_ams : value := VBool true.
Definition default_ams_mapping : value := VList [VInt 0].
Definition default_skip_objects : value := VNone.

(** [if skip_objects is not None and not skip_objects: skip_objects = None] *)
Definition normalise_skip_objects (skip_objects : value) : value :=
  match skip_objects with
  | VNone => VNone
  | v => if negb (truthy v) then VNone else v
  end.

Definition project_file_doc
    (filename : string) (plate : Z)
    (bed_leveling bed_type flow_calibration vibration_calibration : value)
    (use_ams : bool) (ams_mapping : list value) (skip_objects : value) : value :=
  print_command
    [("command", VStr "project_file");
     ("param", VStr ("Metadata/plate_" ++ str_of_int plate ++ ".gcode"));
     ("file", VStr filename);
     ("bed_leveling", bed_leveling);
     ("bed_type", bed_type);
     ("flow_cali", flow_calibration);
     ("vibration_cali", vibration_calibration);
     ("url", VStr ("ftp:///" ++ filename));
     ("layer_inspect", VBool false);
     ("sequence_id", VStr "10000000");
     ("use_ams", VBool use_ams);
     ("ams_mapping", VList ams_mapping);
     ("skip_objects", skip_objects)]%string.

(** [start_print_3mf], with its parameters in the order of the signature. *)
Definition start_print_3mf
    (filename : string) (plate_number : value)
    (bed_leveling flow_calibration vibration_calibration bed_type : value)
    (use_ams ams_mapping skip_objects : value) : M bool :=
  let skip_objects := normalise_skip_objects skip_objects in
  do plate <- lift (py_int plate_number);
  do mapping <- lift (py_iter ams_mapping);
  __publish_command
    (project_file_doc filename plate bed_leveling bed_type flow_calibration
       vibration_calibration (truthy use_ams) mapping skip_objects).

(** [Printer.start_print_min] of [client.py]: the five arguments go to
    [start_print_3mf] by position, the remaining parameters take their
    defaults. *)
Definition start_print_min
    (filename : string) (plate_number : value)
    (use_ams ams_mapping skip_objects : value) : M bool :=
  start_print_3mf filename plate_number
    use_ams ams_mapping skip_objects
    default_bed_type default_use_ams default_ams_mapping default_skip_objects.

(** [Printer.start_print] of [client.py]: every argument by keyword. *)
Definition start_print
    (filename : string) (plate_number : value)
    (bed_leveling flow_calibration vibration_calibration bed_type : value)
    (use_ams ams_mapping skip_objects : value) : M bool :=
  start_print_3mf filename plate_number
    bed_leveling flow_calibration vibration_calibration bed_type
    use_ams ams_mapping skip_objects.

(** ** Embedded G-code lines *)

Definition gcode_line_doc (gcode_command : string) : value :=
  print_command [("command", VStr "gcode_line"); ("param", VStr gcode_command)].

Definition __send_gcode_line (gcode_command : string) : M bool :=
  __publish_command (gcode_line_doc gcode_command).

End Commands.

(** ** Fan speed *)

(** The line feed that ends an embedded line. *)
Definition LF : string := String (ascii_of_nat 10) EmptyString.

(** The nearest integer to [m * 2^e], ties to the even one. *)
Definition round_half_even (m : positive) (e : Z) : Z :=
  if 0 <=? e then Z.pos m * 2 ^ e
  else
    let d := 2 ^ (- e) in
    let q := Z.pos m / d in
    let r := Z.pos m mod d in
    match 2 * r ?= d with
    | Lt => q
    | Gt => q + 1
    | Eq => if Z.even q then q else q + 1
    end.

(** [round(x)] of a float: an [int], half to even; no integer is near an
    infinity or a NaN. *)
Definition py_round (x : float) : outcome Z :=
  match Prim2SF x with
  | S754_zero _ => Ok 0
  | S754_infinity _ => Raise OverflowError
  | S754_nan => Raise ValueError
  | S754_finite s m e =>
      Ok (if s then - round_half_even m e else round_half_even m e)
  end.

(** [a / b] on floats. *)
Definition py_float_div (a b : float) : outcome float :=
  if PrimFloat.eqb b 0%float then Raise ZeroDivisionError
  else Ok (PrimFloat.div a b).

Section Fans.
Context `{RT : Runtime}.

Definition fan_line (fan_num : Z) (speed : string) : string :=
  ("M106 P" ++ str_of_int fan_num ++ " S" ++ speed ++ LF)%string.

(** [_set_fan_speed]: [bool] is a subclass of [int], so a [bool] takes the
    first branch, where it compares as 0 or 1 and prints as its name. *)
Definition _set_fan_speed (speed : value) (fan_num : Z) : M bool :=
  match speed with
  | VInt z =>
      if (z >? 255) || (z <? 0) then raise ValueError
      else __send_gcode_line (fan_line fan_num (str_of_int z))
  | VBool b =>
      __send_gcode_line (fan_line fan_num (if b then "True" else "False"))
  | VFloat f =>
      if PrimFloat.ltb f 0%float || PrimFloat.ltb 1%float f then raise ValueError
      else
        do q <- lift (py_float_div 255%float f);
        do speed <- lift (py_round q);
        __send_gcode_line (fan_line fan_num (str_of_int speed))
  | _ => raise ValueError
  end.

Definition set_part_fan_speed (speed : value) : M bool := _set_fan_speed speed 1.
Definition set_aux_fan_speed (speed : value) : M bool := _set_fan_speed speed 2.
Definition set_chamber_fan_speed (speed : value) : M bool := _set_fan_speed speed 3.

End Fans.

(* ================================================================== *)
(** * The G-code validator *)
(* ================================================================== *)

(** A [str] is read as its list of characters.  Characters are code
    points below 256 (Latin-1); in that range the classes below are the
    ones Python uses. *)
Abbreviation chars := (list ascii).

Definition code (c : ascii) : N := N_of_ascii c.

(** [str.isspace] for one character: what [strip()] removes and what
    [split()] separates on. *)
Definition py_isspace (c : ascii) : bool :=
  let n := code c in
  ((9 <=? n) && (n <=? 13) || (28 <=? n) && (n <=? 32)
   || (n =? 133) || (n =? 160))%N.

(** The class [\d] of a [str] pattern. *)
Definition py_isdigit (c : ascii) : bool :=
  let n := code c in ((48 <=? n) && (n <=? 57))%N.

(** The class [[A-Z]]. *)
Definition is_upper (c : ascii) : bool :=
  let n := code c in ((65 <=? n) && (n <=? 90))%N.

Definition is_char (a c : ascii) : bool := Ascii.eqb a c.

(** ** Regular expressions, as much of [re] as the two patterns use *)

Inductive regex : Type :=
| Void
| Eps
| Chr (p : ascii -> bool)
| Cat (r1 r2 : regex)
| Alt (r1 r2 : regex)
| Star (r : regex).

Definition Plus (r : regex) : regex := Cat r (Star r).
Definition Opt (r : regex) : regex := Alt r Eps.

Fixpoint nullable (r : regex) : bool :=
  match r with
  | Void => false
  | Eps => true
  | Chr _ => false
  | Cat r1 r2 => nullable r1 && nullable r2
  | Alt r1 r2 => nullable r1 || nullable r2
  | Star _ => true
  end.

(** What is left of [r] after reading [c]. *)
Fixpoint deriv (c : ascii) (r : regex) : regex :=
  match r with
  | Void => Void
  | Eps => Void
  | Chr p => if p c then Eps else Void
  | Cat r1 r2 =>
      if nullable r1 then Alt (Cat (deriv c r1) r2) (deriv c r2)
      else Cat (deriv c r1) r2
  | Alt r1 r2 => Alt (deriv c r1) (deriv c r2)
  | Star r1 => Cat (deriv c r1) (Star r1)
  end.

(** The whole of [s] is a word of [r]. *)
Fixpoint fullmatch (r : regex) (s : chars) : bool :=
  match s with
  | [] => nullable r
  | c :: s' => fullmatch (deriv c r) s'
  end.

(** Some prefix of [s] is a word of [r]. *)
Fixpoint prefixmatch (r : regex) (s : chars) : bool :=
  nullable r ||
  match s with
  | [] => false
  | c :: s' => prefixmatch (deriv c r) s'
  end.

(** A compiled pattern: its body, and whether it ends in [$]. *)
Record pattern : Type := mkPattern {
  body : regex;
  dollar : bool;
}.

Definition newline : ascii := ascii_of_nat 10.

(** [s] without its last character, when that is a line feed. *)
Definition chomp (s : chars) : option chars :=
  match rev s with
  | c :: r => if Ascii.eqb c newline then Some (rev r) else None
  | [] => None
  end.

(** Whether [re.match(p, s)] finds a match.  The search is anchored at
    the start of [s]; [$] holds at the end of [s] and just before a line
    feed that ends [s]. *)
Definition re_match (p : pattern) (s : chars) : bool :=
  if dollar p then
    fullmatch (body p) s ||
    match chomp s with
    | Some s' => fullmatch (body p) s'
    | None => false
    end
  else prefixmatch (body p) s.

(** [^[GM]\d+] *)
Definition command_pattern : pattern :=
  {| body := Cat (Chr (fun c => is_char "G" c || is_char "M" c))
                 (Plus (Chr py_isdigit));
     dollar := false |}.

(** [^[A-Z]-?\d+(\.\d+)?$] *)
Definition parameter_pattern : pattern :=
  {| body :=
       Cat (Chr is_upper)
        (Cat (Opt (Chr (is_char "-")))
          (Cat (Plus (Chr py_isdigit))
               (Opt (Cat (Chr (is_char ".")) (Plus (Chr py_isdigit))))));
     dollar := true |}.

(** ** The string methods *)

(** [s.split(sep)[0]] for a one-character [sep]. *)
Fixpoint before_sep (sep : ascii) (s : chars) : chars :=
  match s with
  | [] => []
  | c :: s' => if Ascii.eqb c sep then [] else c :: before_sep sep s'
  end.

Fixpoint lstrip (s : chars) : chars :=
  match s with
  | [] => []
  | c :: s' => if py_isspace c then lstrip s' else s
  end.

(** [s.strip()] *)
Definition strip (s : chars) : chars := rev (lstrip (rev (lstrip s))).

(** [s.split()]: the maximal runs of characters that are not white
    space.  [cur] is the run being read, last character first. *)
Fixpoint split_from (cur : chars) (s : chars) : list chars :=
  match s with
  | [] => match cur with [] => [] | _ => [rev cur] end
  | c :: s' =>
      if py_isspace c then
        match cur with
        | [] => split_from [] s'
        | _ => rev cur :: split_from [] s'
        end
      else split_from (c :: cur) s'
  end.

Definition split (s : chars) : list chars := split_from [] s.

Definition is_valid_gcode (line : string) : bool :=
  let line := strip (before_sep ";" (list_ascii_of_string line)) in
  if match line with [] => true | _ => false end
     || negb (re_match command_pattern line)
  then false
  else forallb (re_match parameter_pattern) (tail (split line)).

(* ================================================================== *)
(** * The rest of the dispatcher *)
(* ================================================================== *)

(** [sep.join(l)]: every element must be a [str]. *)
Fixpoint py_join (sep : string) (l : list value) : outcome string :=
  match l with
  | [] => Ok EmptyString
  | VStr s :: rest =>
      match rest with
      | [] => Ok s
      | _ => obind (py_join sep rest) (fun tail_ => Ok (s ++ sep ++ tail_)%string)
      end
  | _ => Raise TypeError
  end.

(** [is_valid_gcode(g)] for an object that need not be a [str]: only a
    [str] has the [split] method the function starts with. *)
Definition is_valid_gcode_of (g : value) : outcome bool :=
  match g with
  | VStr s => Ok (is_valid_gcode s)
  | _ => Raise AttributeError
  end.

(** [any(not is_valid_gcode(g) for g in l)]: stops at the first line that
    is not valid. *)
Fixpoint any_invalid (l : list value) : outcome bool :=
  match l with
  | [] => Ok false
  | g :: rest =>
      obind (is_valid_gcode_of g)
        (fun valid => if negb valid then Ok true else any_invalid rest)
  end.

Section Dispatcher.
Context `{RT : Runtime}.

(** [send_gcode]: a [str], a [list], or anything else, for which the
    method falls off its end and returns [None]. *)
Definition send_gcode (gcode_command : value) : M (option bool) :=
  match gcode_command with
  | VStr s =>
      if negb (is_valid_gcode s) then raise ValueError
      else do sent_ <- __send_gcode_line s; ret (Some sent_)
  | VList l =>
      do invalid <- lift (any_invalid l);
      if invalid then raise ValueError
      else
        do lines <- lift (py_join LF l);
        do sent_ <- __send_gcode_line lines;
        ret (Some sent_)
  | _ => ret None
  end.

(** The setters that build their line themselves.  Their argument is the
    [int] of the signature. *)
Definition temperature_line (command : string) (temperature : Z) : string :=
  (command ++ " S" ++ str_of_int temperature ++ LF)%string.

Definition set_bed_temperature (temperature : Z) : M bool :=
  __send_gcode_line (temperature_line "M140" temperature).

Definition set_nozzle_temperature (temperature : Z) : M bool :=
  __send_gcode_line (temperature_line "M104" temperature).

Definition bed_height_line (height : Z) : string :=
  ("G90" ++ LF ++ "G0 Z" ++ str_of_int height ++ LF)%string.

Definition set_bed_height (height : Z) : M bool :=
  __send_gcode_line (bed_height_line height).

Definition auto_home : M bool := __send_gcode_line ("G28" ++ LF)%string.

Definition stop_print : M bool :=
  __publish_command (print_command [("command", VStr "stop")]).

(** [start_print_3mf_min]: the builder with its calibration flags and bed
    type written into the document. *)
Definition start_print_3mf_min
    (filename : string) (plate_number : value)
    (use_ams ams_mapping skip_objects : value) : M bool :=
  let skip_objects := normalise_skip_objects skip_objects in
  do plate <- lift (py_int plate_number);
  do mapping <- lift (py_iter ams_mapping);
  __publish_command
    (print_command
       [("command", VStr "project_file");
        ("param", VStr ("Metadata/plate_" ++ str_of_int plate ++ ".gcode"));
        ("file", VStr filename);
        ("bed_leveling", VBool true);
        ("bed_type", VStr "textured_plate");
        ("flow_cali", VBool true);
        ("vibration_cali", VBool true);
        ("url", VStr ("ftp:///" ++ filename));
        ("layer_inspect", VBool false);
        ("sequence_id", VStr "10000000");
        ("use_ams", VBool (truthy use_ams));
        ("ams_mapping", VList mapping);
        ("skip_objects", skip_objects)]%string).

(** [Printer.calibrate_printer] of [client.py]: the three flags go to
    [calibration] by position. *)
Definition calibrate_printer
    (bed_level motor_noise_calibration vibration_compensation : bool) : M bool :=
  calibration bed_level motor_noise_calibration vibration_compensation.

End Dispatcher.

(* ================================================================== *)
(** * The AMS parser *)
(* ================================================================== *)

Notation "'try' x <- o ; k" := (obind o (fun x => k))
  (at level 10, x name, o at level 100, k at level 200).

Section Ams.
Context `{RT : Runtime}.

(** [int(tray.get("id", tray_id))] and [int(v.get("id", k))]: the id a
    tray or a unit reports, its position when it reports none. *)
Definition id_of (position : Z) (v : value) : outcome Z :=
  try i <- py_get v "id" (VInt position);
  py_int i.

(** The inner loop of [process_ams]: [for tray_id, tray in enumerate(trays)],
    entered at position [tray_id]. *)
Fixpoint process_trays (ams : AMS) (tray_id : Z) (trays : list value) : outcome AMS :=
  match trays with
  | [] => Ok ams
  | tray :: rest =>
      try tray_index <- id_of tray_id tray;
      try tray_n <- py_get tray "n" VNone;
      try ams <- (if truthy tray_n then
                    try filament_tray <- from_dict tray;
                    Ok (set_filament_tray ams tray_index filament_tray)
                  else Ok ams);
      process_trays ams (tray_id + 1) rest
  end.

(** The body of the outer loop, up to the assignment into the hub: the id
    the unit goes under, and the unit. *)
Definition process_unit (k : Z) (v : value) : outcome (Z * AMS) :=
  try h <- py_get v "humidity" (VInt 0);
  try humidity <- py_int h;
  try t <- py_get v "temp" (VFloat 0%float);
  try temp <- py_float t;
  try id <- id_of k v;
  let ams := AMS_new humidity temp in
  try trays <- py_get v "tray" (VList []);
  try ams <- (if truthy trays then
                try l <- py_iter trays;
                process_trays ams 0 l
              else Ok ams);
  Ok (id, ams).

(** The outer loop: [for k, v in enumerate(ams_units)], entered at [k]. *)
Fixpoint process_units (k : Z) (ams_units : list value) : M unit :=
  match ams_units with
  | [] => ret tt
  | v :: rest =>
      do unit_ <- lift (process_unit k v);
      run modify (fun st => set_ams_hub (<[unit_.1 := unit_.2]> (ams_hub st)) st);
      process_units (k + 1) rest
  end.

(** [not ams_info or ams_info.get("ams_exist_bits", "0") == "0"] *)
Definition no_ams (ams_info : value) : outcome bool :=
  if negb (truthy ams_info) then Ok true
  else
    try bits <- py_get ams_info "ams_exist_bits" (VStr "0");
    Ok (py_eq_str bits "0").

Definition process_ams (now : Z) : M unit :=
  do ams_info <- __get "ams" VNone now;
  run modify (set_ams_hub ∅);
  do absent <- lift (no_ams ams_info);
  if absent then ret tt
  else
    do ams_units <- lift (py_get ams_info "ams" (VList []));
    do units <- lift (py_iter ams_units);
    process_units 0 units.

(** The part of [process_ams] after the read and the reset of the hub. *)
Definition rebuild_hub (ams_info : value) : M unit :=
  do absent <- lift (no_ams ams_info);
  if absent then ret tt
  else
    do ams_units <- lift (py_get ams_info "ams" (VList []));
    do units <- lift (py_iter ams_units);
    process_units 0 units.

End Ams.

(* ================================================================== *)
(** * What the properties observe *)
(* ================================================================== *)

Section Observations.
Context `{RT : Runtime}.

(** The messages handed to the transport between two states of the
    client, oldest first. *)
Definition published (before after : PrinterMQTTClient) : list (string * value) :=
  drop (length (sent (_client before))) (sent (_client after)).

(** The full-refresh request of this client, as the transport sees it. *)
Definition refresh_message (st : PrinterMQTTClient) : string * value :=
  (command_topic st, pushall_doc).

(** A decoded report carries a section of the ["print"] domain. *)
Definition carries_print (doc : value) : Prop :=
  exists section, py_getitem doc "print" = Ok section.

(** A field of the ["print"] section of a command document. *)
Definition document_field (doc : value) (name : string) : option value :=
  match doc with
  | VDict members =>
      match dict_lookup members "print" with
      | Some (VDict fields) => dict_lookup fields name
      | _ => None
      end
  | _ => None
  end.

End Observations.

Section FurtherObservations.
Context `{RT : Runtime}.

(** A run of reads, each with its key, default and time: the results in
    order, up to the first read that raises. *)
Fixpoint read_all (reads : list (string * value * Z)) : M (list value) :=
  match reads with
  | [] => ret []
  | (key, dflt, now) :: rest =>
      do v <- __get key dflt now;
      do vs <- read_all rest;
      ret (v :: vs)
  end.

(** A method leaves the snapshot alone, whatever it returns or raises. *)
Definition keeps_snapshot {A} (m : M A) : Prop :=
  forall st,
    _data (m st).2 = _data st /\ _data_other (m st).2 = _data_other st /\
    strict (m st).2 = strict st.

(** The flags an option of the calibration command stands for, in the
    order of the parameters of [calibration]. *)
Definition calibration_flags (option : Z) : bool * bool * bool :=
  (Z.testbit option 1, Z.testbit option 3, Z.testbit option 2).

End FurtherObservations.

(** White space only. *)
Definition all_space (s : chars) : Prop := Forall (fun c => py_isspace c = true) s.

(** A character that is neither white space nor the comment sign. *)
Definition plain (c : ascii) : Prop :=
  py_isspace c = false /\ Ascii.eqb c ";" = false.

(** Tokens, each with the white space character written before it. *)
Definition spaced (tokens : list (ascii * chars)) : chars :=
  concat (map (fun t => t.1 :: t.2) tokens).

Definition well_spaced (tokens : list (ascii * chars)) : Prop :=
  Forall (fun t => py_isspace t.1 = true /\ t.2 <> [] /\ Forall plain t.2) tokens.

(* ================================================================== *)
(** * A runtime to run the model on *)
(* ================================================================== *)

(** Every theorem below holds for any [Runtime].  To evaluate the model
    on concrete reports one is needed; this one decodes JSON as Python
    does and converts the numbers the examples use. *)
Module Sample.

(** ** [json.loads]

    The decoder of the [json] module, in the steps of [json.scanner] and
    [json.decoder], for a payload of ASCII bytes other than NUL whose
    strings stay within the alphabet; an escape may name any character up
    to [\u00ff].  A payload with another byte or a further escape, and
    one nested deeper than the interpreter recurses, are not covered: the
    first two are answered like a payload that does not decode. *)

Definition decode_error {A} : outcome A := Raise JSONDecodeError.

Definition is_code (n : N) (c : ascii) : bool := N.eqb (code c) n.

(** The white space of JSON: space, tab, line feed, carriage return. *)
Definition json_space (c : ascii) : bool :=
  is_code 32 c || is_code 9 c || is_code 10 c || is_code 13 c.

Fixpoint skip_space (s : chars) : chars :=
  match s with
  | c :: rest => if json_space c then skip_space rest else s
  | [] => []
  end.

(** [s] without the prefix [word], if it starts with it. *)
Fixpoint after_word (word s : chars) : option chars :=
  match word, s with
  | [], _ => Some s
  | w :: word', c :: s' => if Ascii.eqb w c then after_word word' s' else None
  | _ :: _, [] => None
  end.

(** The longest run of digits at the start, and what follows it. *)
Fixpoint span_digits (s : chars) : chars * chars :=
  match s with
  | c :: rest =>
      if py_isdigit c then let (ds, rest') := span_digits rest in (c :: ds, rest')
      else ([], s)
  | [] => ([], [])
  end.

Definition digit_value (c : ascii) : Z := Z.of_N (code c) - 48.

Definition number_of (ds : chars) : Z :=
  fold_left (fun n c => 10 * n + digit_value c) ds 0.

(** [float] of a decimal numeral [digits * 10^exp10], [digits] being
    written with [width] digits: the nearest double, ties to even.  The
    quotient is taken with 64 bits more than its divisor has, and one
    more bit records whether the division left a remainder. *)
Definition float_of_decimal (negative : bool) (digits width exp10 : Z) : float :=
  let magnitude :=
    if digits =? 0 then S754_zero false
    else if 0 <=? exp10 then
      if 400 <? exp10 then S754_infinity false
      else binary_normalize prec emax (digits * 10 ^ exp10) 0 false
    else if width + 400 <? - exp10 then S754_zero false
    else
      let den := 10 ^ (- exp10) in
      let shift := 64 + Z.log2_up den in
      let num := Z.shiftl digits shift in
      let sticky := if num mod den =? 0 then 0 else 1 in
      binary_normalize prec emax (2 * (num / den) + sticky) (- (shift + 1)) false in
  let f := SF2Prim magnitude in
  if negative then PrimFloat.opp f else f.

(** A number at the start of [s]: an optional minus, then 0 or a run of
    digits that does not start with 0, then optionally a point with
    digits, then optionally e or E, a sign and digits.  It is an [int]
    without fraction and exponent, a [float] with either. *)
Definition scan_number (s : chars) : outcome (value * chars) :=
  let (negative, s1) :=
    match s with
    | c :: rest => if is_code 45 c then (true, rest) else (false, s)
    | [] => (false, s)
    end in
  let whole :=
    match s1 with
    | c :: rest =>
        if is_code 48 c then Some ([c], rest)
        else if py_isdigit c then
          let (ds, rest') := span_digits rest in Some (c :: ds, rest')
        else None
    | [] => None
    end in
  match whole with
  | None => decode_error
  | Some (int_digits, s2) =>
      let (frac, s3) :=
        match s2 with
        | c :: rest =>
            if is_code 46 c then
              match span_digits rest with
              | ([], _) => ([], s2)
              | (ds, rest') => (ds, rest')
              end
            else ([], s2)
        | [] => ([], s2)
        end in
      let (exponent, s4) :=
        match s3 with
        | c :: rest =>
            if is_code 101 c || is_code 69 c then
              let (minus, rest1) :=
                match rest with
                | d :: rest' =>
                    if is_code 45 d then (true, rest')
                    else if is_code 43 d then (false, rest')
                    else (false, rest)
                | [] => (false, rest)
                end in
              match span_digits rest1 with
              | ([], _) => (None, s3)
              | (ds, rest') =>
                  (Some (if minus then - number_of ds else number_of ds), rest')
              end
            else (None, s3)
        | [] => (None, s3)
        end in
      match frac, exponent with
      | [], None =>
          if 4300 <? Z.of_nat (length int_digits) then Raise ValueError
          else
            let n := number_of int_digits in
            Ok (VInt (if negative then - n else n), s4)
      | _, _ =>
          let all_digits := int_digits ++ frac in
          Ok (VFloat (float_of_decimal negative (number_of all_digits)
                        (Z.of_nat (length all_digits))
                        (default 0 exponent - Z.of_nat (length frac))),
              s4)
      end
  end.

Definition hex_value (c : ascii) : option N :=
  let n := code c in
  if ((48 <=? n) && (n <=? 57))%N then Some (n - 48)%N
  else if ((65 <=? n) && (n <=? 70))%N then Some (n - 55)%N
  else if ((97 <=? n) && (n <=? 102))%N then Some (n - 87)%N
  else None.

(** The character an escape letter stands for. *)
Definition unescape (c : ascii) : option ascii :=
  let n := code c in
  if (n =? 34)%N || (n =? 92)%N || (n =? 47)%N then Some c
  else if (n =? 98)%N then Some (ascii_of_N 8)
  else if (n =? 102)%N then Some (ascii_of_N 12)
  else if (n =? 110)%N then Some (ascii_of_N 10)
  else if (n =? 114)%N then Some (ascii_of_N 13)
  else if (n =? 116)%N then Some (ascii_of_N 9)
  else None.

(** The rest of a string after_word its opening quote, up to the closing one:
    no control character, escapes resolved. *)
Fixpoint scan_string (s : chars) (seen : chars) : outcome (string * chars) :=
  match s with
  | [] => decode_error
  | c :: rest =>
      if is_code 34 c then Ok (string_of_list_ascii (rev seen), rest)
      else if is_code 92 c then
        match rest with
        | e :: rest1 =>
            if is_code 117 e then
              match rest1 with
              | h1 :: h2 :: h3 :: h4 :: rest2 =>
                  match hex_value h1, hex_value h2, hex_value h3, hex_value h4 with
                  | Some a, Some b, Some c', Some d =>
                      let n := (((a * 16 + b) * 16 + c') * 16 + d)%N in
                      if (n <? 256)%N then scan_string rest2 (ascii_of_N n :: seen)
                      else decode_error
                  | _, _, _, _ => decode_error
                  end
              | _ => decode_error
              end
            else
              match unescape e with
              | Some x => scan_string rest1 (x :: seen)
              | None => decode_error
              end
        | [] => decode_error
        end
      else if ((code c <? 32) || (127 <? code c))%N then decode_error
      else scan_string rest (c :: seen)
  end.

(** One value at the start of [s], and what follows it. *)
Fixpoint scan_once (fuel : nat) (s : chars) : outcome (value * chars) :=
  match fuel with
  | O => decode_error
  | S fuel =>
      match s with
      | [] => decode_error
      | c :: rest =>
          if is_code 34 c then
            obind (scan_string rest []) (fun r => Ok (VStr r.1, r.2))
          else if is_code 123 c then
            match skip_space rest with
            | d :: rest1 =>
                if is_code 125 d then Ok (VDict [], rest1)
                else parse_object fuel (d :: rest1) []
            | [] => decode_error
            end
          else if is_code 91 c then
            match skip_space rest with
            | d :: rest1 =>
                if is_code 93 d then Ok (VList [], rest1)
                else parse_array fuel (d :: rest1) []
            | [] => decode_error
            end
          else
            match after_word (list_ascii_of_string "null") s with
            | Some rest1 => Ok (VNone, rest1)
            | None =>
            match after_word (list_ascii_of_string "true") s with
            | Some rest1 => Ok (VBool true, rest1)
            | None =>
            match after_word (list_ascii_of_string "false") s with
            | Some rest1 => Ok (VBool false, rest1)
            | None =>
            match scan_number s with
            | Ok r => Ok r
            | Raise ValueError => Raise ValueError
            | Raise _ =>
            match after_word (list_ascii_of_string "NaN") s with
            | Some rest1 => Ok (VFloat nan, rest1)
            | None =>
            match after_word (list_ascii_of_string "Infinity") s with
            | Some rest1 => Ok (VFloat infinity, rest1)
            | None =>
            match after_word (list_ascii_of_string "-Infinity") s with
            | Some rest1 => Ok (VFloat neg_infinity, rest1)
            | None => decode_error
            end end end end end end end
      end
  end

(** The elements of an array from the first one on, [seen] being those
    before it, the last one first. *)
with parse_array (fuel : nat) (s : chars) (seen : list value)
    : outcome (value * chars) :=
  match fuel with
  | O => decode_error
  | S fuel =>
      obind (scan_once fuel s) (fun r =>
        match skip_space r.2 with
        | d :: rest =>
            if is_code 93 d then Ok (VList (rev (r.1 :: seen)), rest)
            else if is_code 44 d then parse_array fuel (skip_space rest) (r.1 :: seen)
            else decode_error
        | [] => decode_error
        end)
  end

(** The members of an object from the first one on. *)
with parse_object (fuel : nat) (s : chars) (seen : list (string * value))
    : outcome (value * chars) :=
  match fuel with
  | O => decode_error
  | S fuel =>
      match s with
      | q :: rest =>
          if is_code 34 q then
            obind (scan_string rest []) (fun k =>
              match skip_space k.2 with
              | colon :: rest1 =>
                  if is_code 58 colon then
                    obind (scan_once fuel (skip_space rest1)) (fun r =>
                      match skip_space r.2 with
                      | d :: rest2 =>
                          if is_code 125 d then
                            Ok (VDict (rev ((k.1, r.1) :: seen)), rest2)
                          else if is_code 44 d then
                            parse_object fuel (skip_space rest2) ((k.1, r.1) :: seen)
                          else decode_error
                      | [] => decode_error
                      end)
                  else decode_error
              | [] => decode_error
              end)
          else decode_error
      | [] => decode_error
      end
  end.

(** [json.loads(payload)]: one value, white space around it allowed,
    nothing else after it.  A value and an array of values each take one
    unit of fuel for at least one character read, so twice the length is
    enough. *)
Definition loads (payload : string) : outcome value :=
  let s := list_ascii_of_string payload in
  obind (scan_once (2 * length s + 2) (skip_space s)) (fun r =>
    match skip_space r.2 with
    | [] => Ok r.1
    | _ :: _ => decode_error
    end).

(** [int] on numbers: an [int] is itself, a [bool] is 0 or 1, a [float]
    is cut towards zero.  Strings are not parsed here. *)
Definition int_ (v : value) : outcome Z :=
  match v with
  | VInt z => Ok z
  | VBool b => Ok (if b then 1 else 0)
  | VFloat f =>
      match Prim2SF f with
      | S754_zero _ => Ok 0
      | S754_infinity _ => Raise OverflowError
      | S754_nan => Raise ValueError
      | S754_finite s m e =>
          let a := if 0 <=? e then Z.pos m * 2 ^ e else Z.pos m / 2 ^ (- e) in
          Ok (if s then - a else a)
      end
  | VStr _ => Raise ValueError
  | _ => Raise TypeError
  end.

(** [float] on numbers: a [float] is itself, an [int] below 2^53 in
    magnitude converts exactly.  Strings are not parsed here. *)
Definition float_ (v : value) : outcome float :=
  match v with
  | VFloat f => Ok f
  | VInt z =>
      if Z.abs z <? 2 ^ 53 then Ok (SF2Prim (binary_normalize prec emax z 0 false))
      else Raise OverflowError
  | VBool b => Ok (if b then 1%float else 0%float)
  | VStr _ => Raise ValueError
  | _ => Raise TypeError
  end.

(** Modelled from the spec: [states_info.GcodeState] is not among the
    source files.  Section 3 names the states idle, running, pausing and
    paused, decoded from integer codes, with an explicit unknown value
    instead of a decode error.  It does not give the codes; here a state
    has the code of its place in that list. *)
Inductive gcode_state : Type :=
| GS_IDLE
| GS_RUNNING
| GS_PAUSING
| GS_PAUSE
| GS_UNKNOWN.

Definition gcode_state_call (v : value) : outcome gcode_state :=
  match v with
  | VInt 0 => Ok GS_IDLE
  | VInt 1 => Ok GS_RUNNING
  | VInt 2 => Ok GS_PAUSING
  | VInt 3 => Ok GS_PAUSE
  | _ => Ok GS_UNKNOWN
  end.

Definition gcode_state_eq (a b : gcode_state) : bool :=
  match a, b with
  | GS_IDLE, GS_IDLE | GS_RUNNING, GS_RUNNING | GS_PAUSING, GS_PAUSING
  | GS_PAUSE, GS_PAUSE | GS_UNKNOWN, GS_UNKNOWN => true
  | _, _ => false
  end.

(** Modelled from the spec: [filament_info.FilamentTray] is not among the
    source files.  Section 3 gives a material slot a type id, a colour
    and a temperature range, read from the slot's fragment. *)
Record tray : Type := mkTray {
  tray_info_idx : value;
  tray_color : value;
  nozzle_temp_min : value;
  nozzle_temp_max : value;
}.

Definition tray_from_dict (v : value) : outcome tray :=
  try idx <- py_getitem v "tray_info_idx";
  try col <- py_getitem v "tray_color";
  try tmin <- py_getitem v "nozzle_temp_min";
  try tmax <- py_getitem v "nozzle_temp_max";
  Ok (mkTray idx col tmin tmax).

#[export] Instance runtime : Runtime := {|
  json_loads := loads;
  py_int := int_;
  py_float := float_;
  GcodeState := gcode_state;
  GcodeState_call := gcode_state_call;
  PAUSE := GS_PAUSE;
  RUNNING := GS_RUNNING;
  GcodeState_eq := gcode_state_eq;
  FilamentTray := tray;
  from_dict := tray_from_dict;
|}.

(** A client as [__init__] leaves it (non-strict, a refresh at most every
    60 seconds), for serial ["SN"], whose transport is up and confirms
    every message. *)
Definition client0 : PrinterMQTTClient := {|
  _data := ∅;
  _data_other := false;
  _last_update := 0;
  pushall_timeout := 60;
  strict := false;
  command_topic := "device/SN/request";
  ams_hub := ∅;
  _client := {| connected := true; sent := []; acks := fun _ => true |};
|}.

(** The same client with its transport down. *)
Definition client_offline : PrinterMQTTClient :=
  set_client {| connected := false; sent := []; acks := fun _ => true |} client0.

End Sample.

(** The reports, clients and fragments the examples at the end use. *)
Module Fixtures.
Import Sample.

(** Two reports: the second overwrites the progress and leaves the state. *)
Definition report1 : value :=
  VDict [("print", VDict [("mc_percent", VInt 10); ("gcode_state", VInt 1)])].
Definition report2 : value :=
  VDict [("print", VDict [("mc_percent", VInt 20)])].

(** A printer that reports itself paused (code 3). *)
Definition client_paused : PrinterMQTTClient :=
  (manual_update (VDict [("print", VDict [("gcode_state", VInt 3)])]) client0).2.

(** A report of other domains, as the bytes of the message, with members
    of several shapes.  The word [print] occurs in it, but not as a
    member of the report itself. *)
Definition quote : string := String (ascii_of_nat 34) EmptyString.
Definition quoted (s : string) : string := (quote ++ s ++ quote)%string.
Definition other_report : string :=
  ("{" ++ quoted "system" ++ ": {" ++ quoted "print" ++ ": 1}, "
       ++ quoted "info" ++ ": [2.5, null, " ++ quoted "print" ++ "], "
       ++ quoted "upgrade" ++ ": false}")%string.
Definition other_report_doc : value :=
  VDict [("system", VDict [("print", VInt 1)]);
         ("info", VList [VFloat 2.5; VNone; VStr "print"]);
         ("upgrade", VBool false)].

(** A hub with one unit: slot 0 is empty, slot 1 holds a spool. *)
Definition empty_slot : value := VDict [("id", VInt 0); ("n", VStr "")].
Definition loaded_slot : value :=
  VDict [("id", VInt 1); ("n", VStr "GFA00");
         ("tray_info_idx", VStr "GFA00"); ("tray_color", VStr "FF0000FF");
         ("nozzle_temp_min", VInt 190); ("nozzle_temp_max", VInt 230)].
Definition unit0 : value :=
  VDict [("id", VInt 0); ("humidity", VInt 4); ("temp", VFloat 25.5);
         ("tray", VList [empty_slot; loaded_slot])].
Definition ams_members : list (string * value) :=
  [("ams_exist_bits", VStr "1"); ("ams", VList [unit0])].
Definition client_with_ams : PrinterMQTTClient :=
  (manual_update (VDict [("print", VDict [("ams", VDict ams_members)])]) client0).2.

Definition spool : tray :=
  {| tray_info_idx := VStr "GFA00"; tray_color := VStr "FF0000FF";
     nozzle_temp_min := VInt 190; nozzle_temp_max := VInt 230 |}.

Definition unit0_parsed : AMS := set_filament_tray (AMS_new 4 25.5) 1 spool.

(** Two units under id 0: the first by its position, the second by its
    ["id"] field. *)
Definition unit_a : value := VDict [("humidity", VInt 1)].
Definition unit_b : value := VDict [("id", VInt 0); ("humidity", VInt 2)].

End Fixtures.

(* ================================================================== *)
(** * What the validator is specified to accept *)
(* ================================================================== *)

(** The words of a regular expression. *)
Inductive matches : regex -> chars -> Prop :=
| MEps : matches Eps []
| MChr p c : p c = true -> matches (Chr p) [c]
| MCat r1 r2 s1 s2 :
    matches r1 s1 -> matches r2 s2 -> matches (Cat r1 r2) (s1 ++ s2)
| MAltL r1 r2 s : matches r1 s -> matches (Alt r1 r2) s
| MAltR r1 r2 s : matches r2 s -> matches (Alt r1 r2) s
| MStarNil r : matches (Star r) []
| MStarApp r s1 s2 :
    matches r s1 -> matches (Star r) s2 -> matches (Star r) (s1 ++ s2).

(** One or more digits. *)
Definition digits (s : chars) : Prop :=
  s <> [] /\ Forall (fun c => py_isdigit c = true) s.

(** The line starts with G or M followed by digits. *)
Definition starts_with_command (s : chars) : Prop :=
  exists c ds rest,
    s = c :: ds ++ rest /\ (c = "G"%char \/ c = "M"%char) /\ digits ds.

(** A parameter: a single uppercase letter followed by an optionally
    negative, optionally fractional number. *)
Definition parameter_token (s : chars) : Prop :=
  exists letter sign whole frac,
    s = letter :: sign ++ whole ++ frac /\
    is_upper letter = true /\
    (sign = [] \/ sign = ["-"%char]) /\
    digits whole /\
    (frac = [] \/ exists ds, frac = "."%char :: ds /\ digits ds).

(** [code] is [text] up to its first [;], or all of it when it has none. *)
Definition before_comment (text code : chars) : Prop :=
  Forall (fun c => c <> ";"%char) code /\
  (text = code \/ exists comment, text = code ++ ";"%char :: comment).

(** White space among the characters of the alphabet: tab, line feed,
    vertical tab, form feed, carriage return, the four separators 28 to
    31, the space, next line (133) and the no-break space (160). *)
Definition white_space (c : ascii) : bool :=
  existsb (N.eqb (code c)) [9; 10; 11; 12; 13; 28; 29; 30; 31; 32; 133; 160]%N.

Definition blank (s : chars) : Prop := Forall (fun c => white_space c = true) s.

(** [body] is [s] without the white space at its two ends. *)
Definition trimmed (s body : chars) : Prop :=
  exists left right,
    s = left ++ body ++ right /\ blank left /\ blank right /\
    (forall c, head body = Some c -> white_space c = false) /\
    (forall c, last body = Some c -> white_space c = false).

(** The tokens of a line: its maximal runs of characters that are not
    white space, in order. *)
Inductive tokens_of : chars -> list chars -> Prop :=
| tokens_none (s : chars) : blank s -> tokens_of s []
| tokens_next (gap word rest : chars) (tokens : list chars) :
    blank gap ->
    word <> [] ->
    Forall (fun c => white_space c = false) word ->
    (forall c, head rest = Some c -> white_space c = true) ->
    tokens_of rest tokens ->
    tokens_of (gap ++ word ++ rest) (word :: tokens).

(** The validator as section 4.2 words it: drop the comment, trim, and
    then the line is not empty, starts with a command, and each later
    token is a parameter. *)
Definition gcode_accepted (line : string) : Prop :=
  exists code body tokens,
    before_comment (list_ascii_of_string line) code /\
    trimmed code body /\
    tokens_of body tokens /\
    body <> [] /\
    starts_with_command body /\
    Forall parameter_token (tail tokens).

(* ================================================================== *)
(** * Properties of the G-code validator *)
(* ================================================================== *)

Lemma matches_void_inv s : matches Void s -> False.
Proof. intros Hm. inversion Hm. Qed.

Lemma matches_eps_inv s : matches Eps s -> s = [].
Proof. intros Hm. by inversion Hm. Qed.

Lemma matches_chr_inv p s : matches (Chr p) s -> exists c, s = [c] /\ p c = true.
Proof. intros Hm. inversion Hm; subst. eauto. Qed.

Lemma matches_cat_inv r1 r2 s :
  matches (Cat r1 r2) s ->
  exists s1 s2, s = (s1 ++ s2)%list /\ matches r1 s1 /\ matches r2 s2.
Proof. intros Hm. inversion Hm; subst. eauto. Qed.

Lemma matches_alt_inv r1 r2 s :
  matches (Alt r1 r2) s -> matches r1 s \/ matches r2 s.
Proof. intros Hm. inversion Hm; subst; auto. Qed.

Lemma matches_cat_cons r1 r2 c s1 s2 :
  matches r1 (c :: s1) -> matches r2 s2 -> matches (Cat r1 r2) (c :: s1 ++ s2).
Proof. intros H1 H2. apply (MCat r1 r2 (c :: s1) s2 H1 H2). Qed.

Lemma nullable_matches r : nullable r = true <-> matches r [].
Proof.
  induction r as [| |p|r1 IH1 r2 IH2|r1 IH1 r2 IH2|r IH]; simpl.
  - split; [discriminate|]. intros Hm. destruct (matches_void_inv _ Hm).
  - split; [constructor|done].
  - split; [discriminate|]. intros Hm.
    apply matches_chr_inv in Hm as (c & Hc & _). discriminate.
  - rewrite andb_true_iff, IH1, IH2. split.
    + intros [H1 H2]. apply (MCat r1 r2 [] [] H1 H2).
    + intros Hm. apply matches_cat_inv in Hm as (s1 & s2 & E & H1 & H2).
      symmetry in E. apply app_eq_nil in E as [-> ->]. done.
  - rewrite orb_true_iff, IH1, IH2. split.
    + intros [H|H]; [by apply MAltL|by apply MAltR].
    + apply matches_alt_inv.
  - split; [constructor|done].
Qed.

Lemma star_cons r c s :
  matches (Star r) (c :: s) ->
  exists s1 s2, s = (s1 ++ s2)%list /\ matches r (c :: s1) /\ matches (Star r) s2.
Proof.
  intros Hm. remember (Star r) as r' eqn:Er. remember (c :: s) as w eqn:Ew.
  revert s Ew.
  induction Hm as [| | | | | |r0 s1 s2 H1 _ H2 IH2]; intros s' Ew; try discriminate.
  injection Er as ->.
  destruct s1 as [|c1 s1]; simpl in Ew.
  - apply IH2; auto.
  - injection Ew as -> <-. eauto.
Qed.

Lemma deriv_matches c r s : matches (deriv c r) s <-> matches r (c :: s).
Proof.
  revert s.
  induction r as [| |p|r1 IH1 r2 IH2|r1 IH1 r2 IH2|r IH]; intros s; simpl.
  - split; intros Hm; destruct (matches_void_inv _ Hm).
  - split; intros Hm; [destruct (matches_void_inv _ Hm)|].
    apply matches_eps_inv in Hm. discriminate.
  - destruct (p c) eqn:Hp; split; intros Hm.
    + apply matches_eps_inv in Hm as ->. by constructor.
    + apply matches_chr_inv in Hm as (c' & [= <- ->] & _). constructor.
    + destruct (matches_void_inv _ Hm).
    + apply matches_chr_inv in Hm as (c' & [= <- ->] & Hc). congruence.
  - assert (Hcat : matches (Cat (deriv c r1) r2) s <->
                   exists s1 s2, s = (s1 ++ s2)%list /\ matches r1 (c :: s1) /\ matches r2 s2).
    { split.
      - intros Hm. apply matches_cat_inv in Hm as (s1 & s2 & -> & H1 & H2).
        exists s1, s2. by rewrite <- IH1.
      - intros (s1 & s2 & -> & H1 & H2). constructor; [by apply IH1|done]. }
    assert (Hsplit : matches (Cat r1 r2) (c :: s) <->
                     (matches r1 [] /\ matches r2 (c :: s)) \/
                     exists s1 s2, s = (s1 ++ s2)%list /\ matches r1 (c :: s1) /\ matches r2 s2).
    { split.
      - intros Hm. apply matches_cat_inv in Hm as (s1 & s2 & E & H1 & H2).
        destruct s1 as [|c1 s1]; simpl in E.
        + subst s2. by left.
        + injection E as <- ->. right. eauto.
      - intros [[H1 H2] | (s1 & s2 & -> & H1 & H2)].
        + apply (MCat r1 r2 [] (c :: s) H1 H2).
        + by apply matches_cat_cons. }
    rewrite Hsplit. destruct (nullable r1) eqn:Hn.
    + split.
      * intros Hm. apply matches_alt_inv in Hm as [Hm|Hm].
        -- right. by apply Hcat.
        -- left. split; [by apply nullable_matches|by apply IH2].
      * intros [[_ H2]|H]; [apply MAltR; by apply IH2|apply MAltL; by apply Hcat].
    + rewrite Hcat. split; [by right|].
      intros [[H1 _]|H]; [|done].
      apply nullable_matches in H1. congruence.
  - split; intros Hm; apply matches_alt_inv in Hm as [Hm|Hm];
      ((apply MAltL; by apply IH1) || (apply MAltR; by apply IH2)).
  - split; intros Hm.
    + apply matches_cat_inv in Hm as (s1 & s2 & -> & H1 & H2).
      apply (MStarApp r (c :: s1) s2); [by apply IH|done].
    + apply star_cons in Hm as (s1 & s2 & -> & H1 & H2).
      constructor; [by apply IH|done].
Qed.

Lemma fullmatch_matches r s : fullmatch r s = true <-> matches r s.
Proof.
  revert r. induction s as [|c s IH]; intros r; simpl.
  - apply nullable_matches.
  - rewrite IH. apply deriv_matches.
Qed.

Lemma prefixmatch_matches r s :
  prefixmatch r s = true <-> exists s1 s2, s = (s1 ++ s2)%list /\ matches r s1.
Proof.
  revert r. induction s as [|c s IH]; intros r; simpl.
  - rewrite orb_false_r, nullable_matches. split.
    + intros Hm. by exists [], [].
    + intros (s1 & s2 & E & Hm). symmetry in E. apply app_eq_nil in E as [-> _]. done.
  - rewrite orb_true_iff, nullable_matches, IH. split.
    + intros [Hm | (s1 & s2 & -> & Hm)].
      * by exists [], (c :: s).
      * exists (c :: s1), s2. split; [done|]. by apply deriv_matches.
    + intros (s1 & s2 & E & Hm). destruct s1 as [|c1 s1]; simpl in E.
      * by left.
      * injection E as <- ->. right. exists s1, s2. split; [done|]. by apply deriv_matches.
Qed.

Lemma matches_star_class p s :
  matches (Star (Chr p)) s <-> Forall (fun c => p c = true) s.
Proof.
  split.
  - intros Hm. remember (Star (Chr p)) as r eqn:Er.
    induction Hm as [| | | | | |r0 s1 s2 H1 _ _ IH2]; try discriminate.
    + constructor.
    + injection Er as ->.
      apply matches_chr_inv in H1 as (c & -> & Hc).
      constructor; [done|]. by apply IH2.
  - induction 1 as [|c s Hc _ IH]; [constructor|].
    apply (MStarApp (Chr p) [c] s); [by constructor|done].
Qed.

Lemma matches_plus_class p s :
  matches (Plus (Chr p)) s <-> s <> [] /\ Forall (fun c => p c = true) s.
Proof.
  unfold Plus. split.
  - intros Hm. apply matches_cat_inv in Hm as (s1 & s2 & -> & H1 & H2).
    apply matches_chr_inv in H1 as (c & -> & Hc).
    apply matches_star_class in H2. split; [done|]. by constructor.
  - intros [Hne Hall]. destruct Hall as [|c s Hc Hall]; [done|].
    apply (MCat (Chr p) (Star (Chr p)) [c] s); [by constructor|].
    by apply matches_star_class.
Qed.

Lemma matches_digits s : matches (Plus (Chr py_isdigit)) s <-> digits s.
Proof. apply matches_plus_class. Qed.

Lemma matches_opt r s : matches (Opt r) s <-> matches r s \/ s = [].
Proof.
  unfold Opt. split.
  - intros Hm. apply matches_alt_inv in Hm as [Hm|Hm]; [by left|].
    right. by apply matches_eps_inv.
  - intros [Hm| ->]; [by apply MAltL|apply MAltR; constructor].
Qed.

Lemma is_char_true a c : is_char a c = true <-> c = a.
Proof. unfold is_char. rewrite Ascii.eqb_eq. split; congruence. Qed.

Lemma command_pattern_spec s :
  re_match command_pattern s = true <-> starts_with_command s.
Proof.
  unfold re_match, command_pattern, starts_with_command; cbn [dollar body].
  rewrite prefixmatch_matches. split.
  - intros (s1 & rest & -> & Hm).
    apply matches_cat_inv in Hm as (h & ds & -> & Hc & Hds).
    apply matches_chr_inv in Hc as (c & -> & Hc).
    apply matches_digits in Hds.
    exists c, ds, rest. split; [by rewrite <- app_assoc|]. split; [|done].
    cbv beta in Hc. apply orb_true_iff in Hc. rewrite !is_char_true in Hc. done.
  - intros (c & ds & rest & -> & Hc & Hds).
    exists (c :: ds), rest. split; [done|].
    apply (MCat _ _ [c] ds); [|by apply matches_digits].
    constructor. cbv beta. apply orb_true_iff. rewrite !is_char_true. done.
Qed.

Lemma parameter_body_spec s :
  matches (body parameter_pattern) s <-> parameter_token s.
Proof.
  unfold parameter_pattern, parameter_token; cbn [body]. split.
  - intros Hm.
    apply matches_cat_inv in Hm as (l & s1 & -> & Hl & Hm).
    apply matches_chr_inv in Hl as (letter & -> & Hl).
    apply matches_cat_inv in Hm as (sign & s2 & -> & Hsign & Hm).
    apply matches_cat_inv in Hm as (whole & frac & -> & Hwhole & Hfrac).
    apply matches_digits in Hwhole.
    exists letter, sign, whole, frac. split; [done|]. split; [done|].
    split; [|split; [done|]].
    + apply matches_opt in Hsign as [Hsign|Hsign]; [|by left].
      apply matches_chr_inv in Hsign as (c & -> & Hc).
      apply is_char_true in Hc as ->. by right.
    + apply matches_opt in Hfrac as [Hfrac|Hfrac]; [|by left].
      apply matches_cat_inv in Hfrac as (dot & ds & -> & Hdot & Hds).
      apply matches_chr_inv in Hdot as (c & -> & Hc).
      apply is_char_true in Hc as ->. apply matches_digits in Hds.
      right. by exists ds.
  - intros (letter & sign & whole & frac & -> & Hl & Hsign & Hwhole & Hfrac).
    apply (MCat _ _ [letter]); [by constructor|].
    constructor; [|constructor].
    + apply matches_opt. destruct Hsign as [->| ->]; [by right|left].
      constructor. by apply is_char_true.
    + by apply matches_digits.
    + apply matches_opt. destruct Hfrac as [->|(ds & -> & Hds)]; [by right|left].
      apply (MCat _ _ ["."%char]); [|by apply matches_digits].
      constructor. by apply is_char_true.
Qed.

(** Tokens of [split] hold no white space. *)
Lemma split_from_no_space cur s :
  Forall (fun c => py_isspace c = false) cur ->
  Forall (Forall (fun c => py_isspace c = false)) (split_from cur s).
Proof.
  revert cur. induction s as [|c s IH]; intros cur Hcur; simpl.
  - destruct cur; [constructor|]. constructor; [|constructor].
    by apply Forall_rev.
  - destruct (py_isspace c) eqn:Hc.
    + destruct cur.
      * by apply IH.
      * constructor; [by apply Forall_rev|]. by apply IH.
    + apply IH. by constructor.
Qed.

Lemma split_no_space s :
  Forall (Forall (fun c => py_isspace c = false)) (split s).
Proof. apply split_from_no_space. constructor. Qed.

Lemma chomp_no_space s :
  Forall (fun c => py_isspace c = false) s -> chomp s = None.
Proof.
  intros Hs. unfold chomp. apply Forall_rev in Hs.
  destruct (rev s) as [|c r]; [done|].
  destruct (Ascii.eqb c newline) eqn:Hc; [|done].
  apply Ascii.eqb_eq in Hc as ->. by inversion Hs.
Qed.

Lemma parameter_pattern_spec s :
  Forall (fun c => py_isspace c = false) s ->
  re_match parameter_pattern s = true <-> parameter_token s.
Proof.
  intros Hs. unfold re_match.
  change (dollar parameter_pattern) with true. cbv iota.
  rewrite (chomp_no_space s Hs), orb_false_r, fullmatch_matches.
  apply parameter_body_spec.
Qed.

Lemma forallb_Forall_on {A} (P Q : A -> Prop) (f : A -> bool) (l : list A) :
  Forall P l ->
  (forall x, P x -> (f x = true <-> Q x)) ->
  forallb f l = true <-> Forall Q l.
Proof.
  intros Hl Hf. induction Hl as [|x l Hx _ IH]; simpl.
  - split; [constructor|done].
  - rewrite andb_true_iff, IH, (Hf x Hx). split.
    + intros [H1 H2]. by constructor.
    + intros H. by inversion H.
Qed.

Lemma Forall_tail {A} (P : A -> Prop) (l : list A) :
  Forall P l -> Forall P (tail l).
Proof. intros [|x l' _ H]; [constructor|exact H]. Qed.

Lemma is_valid_gcode_steps (line : string) :
  is_valid_gcode line = true <->
  (let s := strip (before_sep ";" (list_ascii_of_string line)) in
   s <> [] /\ starts_with_command s /\ Forall parameter_token (tail (split s))).
Proof.
  unfold is_valid_gcode. cbv zeta.
  set (s := strip (before_sep ";" (list_ascii_of_string line))).
  assert (Htok : forallb (re_match parameter_pattern) (tail (split s)) = true <->
                 Forall parameter_token (tail (split s))).
  { eapply forallb_Forall_on.
    - apply Forall_tail, split_no_space.
    - intros t Ht. by apply parameter_pattern_spec. }
  destruct (re_match command_pattern s) eqn:Hc.
  - apply command_pattern_spec in Hc.
    destruct s as [|c s']; simpl orb; cbv iota.
    + split; [discriminate|]. by intros [H _].
    + rewrite Htok. split; [|by intros (_ & _ & H)]. by intros H.
  - assert (~ starts_with_command s) as Hn.
    { intros H. apply command_pattern_spec in H. congruence. }
    destruct s; simpl orb; cbv iota; (split; [discriminate|]); by intros (_ & H & _).
Qed.

Lemma list_ascii_of_string_app (a b : string) :
  list_ascii_of_string (a ++ b)%string =
    list_ascii_of_string a ++ list_ascii_of_string b.
Proof. induction a as [|c a IH]; simpl; [done|]. by rewrite IH. Qed.

Lemma before_sep_cut sep (s t : chars) :
  before_sep sep (s ++ sep :: t) = before_sep sep s.
Proof.
  induction s as [|c s IH]; simpl.
  - by rewrite Ascii.eqb_refl.
  - destruct (Ascii.eqb c sep); [done|]. by rewrite IH.
Qed.

Lemma space_not_semicolon c : py_isspace c = true -> Ascii.eqb c ";" = false.
Proof.
  intros Hc. destruct (Ascii.eqb c ";") eqn:E; [|done].
  apply Ascii.eqb_eq in E as ->. discriminate Hc.
Qed.

Lemma before_sep_margin_l (ws s : chars) :
  all_space ws -> before_sep ";" (ws ++ s) = ws ++ before_sep ";" s.
Proof.
  induction 1 as [|c ws Hc _ IH]; simpl; [done|].
  by rewrite (space_not_semicolon c Hc), IH.
Qed.

Lemma before_sep_margin_r (s ws : chars) :
  all_space ws ->
  before_sep ";" (s ++ ws) = before_sep ";" s \/
  before_sep ";" (s ++ ws) = before_sep ";" s ++ ws.
Proof.
  intros Hws. induction s as [|c s IH]; simpl.
  - right. rewrite <- (app_nil_r ws) at 1. rewrite before_sep_margin_l by done.
    simpl. by rewrite app_nil_r.
  - destruct (Ascii.eqb c ";"); [by left|].
    destruct IH as [->| ->]; auto.
Qed.

Lemma lstrip_all_space (ws s : chars) :
  all_space ws -> lstrip (ws ++ s) = lstrip s.
Proof. induction 1 as [|c ws Hc _ IH]; simpl; [done|]. by rewrite Hc. Qed.

Lemma lstrip_app (s t : chars) :
  (all_space s /\ lstrip s = []) \/ lstrip (s ++ t) = lstrip s ++ t.
Proof.
  induction s as [|c s IH]; simpl.
  - left. split; [constructor|done].
  - destruct (py_isspace c) eqn:Hc; [|by right].
    destruct IH as [[Hs E]|E]; [left|by right].
    split; [by constructor|done].
Qed.

Lemma strip_leading (ws s : chars) : all_space ws -> strip (ws ++ s) = strip s.
Proof. intros H. unfold strip. by rewrite lstrip_all_space. Qed.

Lemma strip_trailing (s ws : chars) : all_space ws -> strip (s ++ ws) = strip s.
Proof.
  intros Hws. unfold strip.
  destruct (lstrip_app s ws) as [[Hs E]| ->].
  - rewrite lstrip_all_space, E by done.
    replace (lstrip ws) with (lstrip (ws ++ [])) by by rewrite app_nil_r.
    by rewrite lstrip_all_space.
  - rewrite rev_app_distr, lstrip_all_space; [done|]. by apply Forall_rev.
Qed.

Lemma before_sep_is (text : chars) : before_comment text (before_sep ";" text).
Proof.
  induction text as [|c text [IH1 IH2]]; simpl.
  - split; [constructor|by left].
  - destruct (Ascii.eqb c ";") eqn:E.
    + apply Ascii.eqb_eq in E as ->. split; [constructor|]. right. by exists text.
    + apply Ascii.eqb_neq in E. split; [by constructor|].
      destruct IH2 as [IH2|[comment IH2]].
      * left. by rewrite <- IH2.
      * right. exists comment. simpl. by rewrite <- IH2.
Qed.

Lemma before_sep_only (text code : chars) :
  before_comment text code -> before_sep ";" text = code.
Proof.
  intros [Hcode Htext].
  assert (Hplain : before_sep ";" code = code).
  { clear Htext. induction Hcode as [|c code Hc _ IH]; simpl; [done|].
    apply Ascii.eqb_neq in Hc. by rewrite Hc, IH. }
  destruct Htext as [->|[comment ->]]; [done|].
  by rewrite before_sep_cut.
Qed.

Lemma head_rev (s : chars) : head (rev s) = last s.
Proof.
  induction s as [|c s _] using rev_ind; [done|].
  by rewrite rev_unit, last_snoc.
Qed.

Lemma white_space_isspace (c : ascii) : white_space c = py_isspace c.
Proof. by destruct c as [[] [] [] [] [] [] [] []]. Qed.

Lemma blank_all_space (s : chars) : blank s <-> all_space s.
Proof.
  unfold blank, all_space.
  split; intros H; (eapply Forall_impl; [exact H|]); intros c; simpl;
    by rewrite white_space_isspace.
Qed.

Lemma lstrip_fixed (s : chars) :
  (forall c, head s = Some c -> white_space c = false) -> lstrip s = s.
Proof.
  destruct s as [|c s]; simpl; [done|]. intros H.
  by rewrite <- white_space_isspace, (H c eq_refl).
Qed.

Lemma lstrip_parts (s : chars) :
  exists ws, s = ws ++ lstrip s /\ blank ws /\
             (forall c, head (lstrip s) = Some c -> white_space c = false).
Proof.
  induction s as [|c s (ws & E & Hws & Hhd)]; simpl.
  - exists []. repeat split; [constructor|done].
  - destruct (py_isspace c) eqn:Hc.
    + exists (c :: ws). simpl. rewrite <- E. repeat split; [|done].
      constructor; [by rewrite white_space_isspace|done].
    + exists []. repeat split; [constructor|]. intros c' [= <-].
      by rewrite white_space_isspace.
Qed.

Lemma strip_only (s body : chars) : trimmed s body -> strip s = body.
Proof.
  intros (l & r & -> & Hl & Hr & Hhd & Hlast).
  apply blank_all_space in Hl, Hr.
  rewrite strip_leading, strip_trailing by done.
  unfold strip. rewrite (lstrip_fixed body Hhd).
  rewrite lstrip_fixed; [apply rev_involutive|].
  intros c. rewrite head_rev. apply Hlast.
Qed.

Lemma strip_is (s : chars) : trimmed s (strip s).
Proof.
  destruct (lstrip_parts s) as (l & Es & Hl & Hhd).
  destruct (lstrip_parts (rev (lstrip s))) as (r & Er & Hr & Hlast).
  assert (Et : lstrip s = strip s ++ rev r).
  { unfold strip. rewrite <- rev_app_distr, <- Er. by rewrite rev_involutive. }
  exists l, (rev r). repeat split.
  - by rewrite <- Et.
  - done.
  - by apply Forall_rev.
  - intros c Hc. apply Hhd. rewrite Et. by destruct (strip s).
  - intros c Hc. apply Hlast. unfold strip in Hc.
    by rewrite <- head_rev, rev_involutive in Hc.
Qed.

Lemma split_from_run cur w s :
  Forall (fun c => white_space c = false) w ->
  split_from cur (w ++ s) = split_from (rev w ++ cur) s.
Proof.
  intros Hw. revert cur. induction Hw as [|c w Hc _ IH]; intros cur; simpl; [done|].
  rewrite <- white_space_isspace, Hc, IH. by rewrite <- app_assoc.
Qed.

Lemma split_from_gap ws s : blank ws -> split_from [] (ws ++ s) = split_from [] s.
Proof.
  induction 1 as [|c ws Hc _ IH]; simpl; [done|].
  by rewrite <- white_space_isspace, Hc.
Qed.

Lemma split_only (s : chars) (tokens : list chars) :
  tokens_of s tokens -> split s = tokens.
Proof.
  unfold split.
  induction 1 as [s Hs|gap word rest tokens Hgap Hne Hword Hrest _ IH].
  - rewrite <- (app_nil_r s). by rewrite split_from_gap.
  - rewrite split_from_gap, split_from_run by done. rewrite app_nil_r.
    assert (Hcur : rev word <> []).
    { intros E. apply Hne. apply (f_equal (@rev ascii)) in E.
      by rewrite rev_involutive in E. }
    destruct rest as [|c rest]; simpl.
    + simpl in IH. subst tokens. rewrite rev_involutive. by destruct (rev word).
    + specialize (Hrest c eq_refl). rewrite white_space_isspace in Hrest.
      rewrite Hrest, rev_involutive.
      simpl in IH. rewrite Hrest in IH. rewrite IH.
      by destruct (rev word).
Qed.

Lemma tokens_gap (c : ascii) (s : chars) (tokens : list chars) :
  white_space c = true -> tokens_of s tokens -> tokens_of (c :: s) tokens.
Proof.
  intros Hc [s' Hs|gap word rest tokens' Hgap Hne Hword Hrest Htok].
  - apply tokens_none. by constructor.
  - apply (tokens_next (c :: gap)); try done. by constructor.
Qed.

Lemma split_from_is (s cur : chars) :
  Forall (fun c => white_space c = false) cur ->
  tokens_of (rev cur ++ s) (split_from cur s).
Proof.
  revert cur. induction s as [|c s IH]; intros cur Hcur.
  - simpl. destruct cur as [|c0 cur0] eqn:E.
    + apply tokens_none. constructor.
    + rewrite <- E in *. rewrite app_nil_r.
      rewrite <- (app_nil_l (rev cur)), <- (app_nil_r (rev cur)) at 1.
      apply tokens_next.
      * constructor.
      * subst cur. simpl. by destruct (rev cur0).
      * by apply Forall_rev.
      * done.
      * apply tokens_none. constructor.
  - cbn [split_from]. rewrite <- white_space_isspace.
    destruct (white_space c) eqn:Hc.
    + assert (Hrest : tokens_of (c :: s) (split_from [] s)).
      { apply tokens_gap; [done|]. apply (IH []). constructor. }
      destruct cur as [|c0 cur0] eqn:E; [exact Hrest|].
      rewrite <- E in *.
      rewrite <- (app_nil_l (rev cur ++ c :: s)).
      apply tokens_next.
      * constructor.
      * subst cur. simpl. by destruct (rev cur0).
      * by apply Forall_rev.
      * by intros c' [= <-].
      * exact Hrest.
    + specialize (IH (c :: cur)). simpl in IH. rewrite <- app_assoc in IH.
      apply IH. by constructor.
Qed.

Lemma split_is (s : chars) : tokens_of s (split s).
Proof. apply (split_from_is s []). constructor. Qed.

Lemma is_valid_gcode_iff (line : string) :
  is_valid_gcode line = true <-> gcode_accepted line.
Proof.
  rewrite is_valid_gcode_steps. cbv zeta. split.
  - intros (Hne & Hcmd & Htok).
    exists (before_sep ";" (list_ascii_of_string line)),
           (strip (before_sep ";" (list_ascii_of_string line))),
           (split (strip (before_sep ";" (list_ascii_of_string line)))).
    repeat split; try done.
    + apply before_sep_is.
    + apply before_sep_is.
    + apply strip_is.
    + apply split_is.
  - intros (code & body & tokens & Hcode & Hbody & Htokens & Hne & Hcmd & Htok).
    apply before_sep_only in Hcode as ->.
    apply strip_only in Hbody as ->.
    apply split_only in Htokens as ->.
    done.
Qed.

(** C7: the validator accepts a line exactly when the text before its
    first [;], without the white space at its two ends, is not empty,
    starts with G or M followed by digits, and every token after the
    first is one uppercase letter followed by an optionally negative,
    optionally fractional number.  The five lines the specification lists
    come out as it says; two lines with white space around and between
    the tokens are accepted, a lowercase parameter letter and a command
    letter without digits are not. *)
Theorem gcode_validator_grammar :
  (forall line, is_valid_gcode line = true <-> gcode_accepted line) /\
  is_valid_gcode "G1 X10 Y-5.5" = true /\
  is_valid_gcode "M104 S200 ; set temp" = true /\
  is_valid_gcode "G1 X10Y5" = false /\
  is_valid_gcode "" = false /\
  is_valid_gcode "; comment only" = false /\
  is_valid_gcode "  G28  " = true /\
  is_valid_gcode " M106   P1 S255 ;fan on" = true /\
  is_valid_gcode "G1 x10" = false /\
  is_valid_gcode "G X10" = false.
Proof.
  split; [exact is_valid_gcode_iff|]. repeat split.
Qed.


(* ================================================================== *)
(** * Properties of the client *)
(* ================================================================== *)

Section ClientFacts.
Context `{RT : Runtime}.

Lemma publish_command_online payload st :
  connected (_client st) = true ->
  __publish_command payload st =
    (Ok (acks (_client st) (length (sent (_client st)))),
     set_client (client_publish (command_topic st) payload (_client st)) st).
Proof. intros H. unfold __publish_command. by rewrite H. Qed.

Lemma publish_command_offline payload st :
  connected (_client st) = false ->
  __publish_command payload st = (Ok false, st).
Proof. intros H. unfold __publish_command. by rewrite H. Qed.

Lemma publish_command_data payload st :
  _data (__publish_command payload st).2 = _data st /\
  _data_other (__publish_command payload st).2 = _data_other st.
Proof. unfold __publish_command. by destruct (connected (_client st)). Qed.

Lemma update_eq now st :
  _update now st =
    if _last_update st + pushall_timeout st >? now then (Ok false, st)
    else __publish_command pushall_doc (set_last_update now st).
Proof.
  unfold _update, bind, gets, ret, modify, pushall.
  by destruct (_last_update st + pushall_timeout st >? now).
Qed.

Lemma update_run now st :
  exists b st', _update now st = (Ok b, st') /\ _data st' = _data st.
Proof.
  rewrite update_eq.
  destruct (_last_update st + pushall_timeout st >? now); [by exists false, st|].
  unfold __publish_command. destruct (connected _); simpl; eauto.
Qed.

Lemma get_eq key dflt now st :
  __get key dflt now st =
    if negb (is_ready st) && strict st
    then (Raise (Exception_ "Printer not found"), st)
    else (Ok (default dflt (_data st !! key)), (_update now st).2).
Proof.
  destruct (update_run now st) as (b & st' & Hu & Hd).
  unfold __get, __ready, ready, bind, gets, ret, raise.
  destruct (is_ready st); simpl;
    [|destruct (strict st); simpl; [done|]];
    rewrite Hu; simpl; by rewrite Hd.
Qed.

Lemma foldl_insert_lookup (kvs : list (string * value)) (d : gmap string value) k :
  foldl (fun d kv => <[kv.1 := kv.2]> d) d kvs !! k =
    match dict_lookup kvs k with
    | Some v => Some v
    | None => d !! k
    end.
Proof.
  revert d. induction kvs as [|[k' v] kvs IH]; intros d; simpl; [done|].
  rewrite IH. destruct (dict_lookup kvs k); [done|].
  destruct (String.eqb k' k) eqn:E.
  - apply String.eqb_eq in E as ->. apply lookup_insert_eq.
  - apply String.eqb_neq in E. by apply lookup_insert_ne.
Qed.

Lemma published_refl st : published st st = [].
Proof. unfold published. apply drop_all. Qed.

(** What one run of the throttle does. *)
Lemma update_cases now st :
  let st' := (_update now st).2 in
  _data st' = _data st /\ _data_other st' = _data_other st /\
  strict st' = strict st /\ pushall_timeout st' = pushall_timeout st /\
  command_topic st' = command_topic st /\ ams_hub st' = ams_hub st /\
  connected (_client st') = connected (_client st) /\
  ((_last_update st + pushall_timeout st > now /\ st' = st) \/
   (_last_update st + pushall_timeout st <= now /\ _last_update st' = now /\
    sent (_client st') =
      sent (_client st) ++
      (if connected (_client st) then [refresh_message st] else []))).
Proof.
  rewrite update_eq.
  destruct (_last_update st + pushall_timeout st >? now) eqn:E; simpl.
  - repeat split; try done. left. split; [lia|done].
  - unfold __publish_command. simpl.
    destruct (connected (_client st)) eqn:Hc; simpl; rewrite ?Hc;
      repeat split; try done; right; (split; [lia|]); split; try done.
    by rewrite app_nil_r.
Qed.

Lemma get_data key dflt now st : _data (__get key dflt now st).2 = _data st.
Proof.
  rewrite get_eq. destruct (negb (is_ready st) && strict st); [done|].
  apply update_cases.
Qed.

(** C1: merge a report R1 and then a report R2 whose ["print"] section
    binds [key] to [v].  The second merge succeeds, a read of [key]
    afterwards returns [v] whatever R1 held, and a key the section of R2
    does not name keeps the value it had (the merge is key-wise). *)
Theorem last_write_wins (st : PrinterMQTTClient) (R1 R2 : value)
    (section : list (string * value)) (key : string) (v dflt : value) (now : Z) :
  py_getitem R2 "print" = Ok (VDict section) ->
  dict_lookup section key = Some v ->
  let st1 := (manual_update R1 st).2 in
  let st2 := (manual_update R2 st1).2 in
  (manual_update R2 st1).1 = Ok tt /\
  (__get key dflt now st2).1 = Ok v /\
  (forall k, dict_lookup section k = None -> _data st2 !! k = _data st1 !! k).
Proof.
  intros Hsec Hkey st1 st2.
  destruct R2 as [| | | | | |kvs]; try discriminate. simpl in Hsec.
  destruct (dict_lookup kvs "print") as [sec|] eqn:Hp; [|discriminate].
  injection Hsec as ->.
  assert (Hrun : manual_update (VDict kvs) st1 =
                 (Ok tt, set_data (foldl (fun d kv => <[kv.1 := kv.2]> d) (_data st1) section)
                                  (_data_other st1) st1)).
  { unfold manual_update, bind, lift, py_contains, py_getitem. rewrite Hp.
    rewrite bool_decide_eq_true_2 by eauto. done. }
  subst st2. rewrite Hrun. simpl. split; [done|].
  split.
  - rewrite get_eq. simpl.
    assert (Hk : foldl (fun d kv => <[kv.1 := kv.2]> d) (_data st1) section !! key = Some v).
    { by rewrite foldl_insert_lookup, Hkey. }
    unfold is_ready. simpl. rewrite bool_decide_eq_false_2.
    + simpl. by rewrite Hk.
    + intros E. rewrite E in Hk. by rewrite lookup_empty in Hk.
  - intros k Hk. by rewrite foldl_insert_lookup, Hk.
Qed.

Lemma published_app before after l :
  sent (_client after) = sent (_client before) ++ l -> published before after = l.
Proof. intros E. unfold published. rewrite E. apply drop_app_length. Qed.

(** On a connected transport a command is one more message, and the
    result is what the transport confirms for it. *)
Lemma publish_command_connected payload st :
  connected (_client st) = true ->
  (__publish_command payload st).1 =
    Ok (acks (_client st) (length (sent (_client st)))) /\
  published st (__publish_command payload st).2 = [(command_topic st, payload)].
Proof.
  intros H. rewrite publish_command_online by done.
  split; [done|]. by apply published_app.
Qed.

(** What one read does to the client: nothing when strict mode rejects
    it, one run of the throttle otherwise. *)
Lemma get_cases key dflt now st :
  (is_ready st = false /\ strict st = true /\
   __get key dflt now st = (Raise (Exception_ "Printer not found"), st)) \/
  ((is_ready st = true \/ strict st = false) /\
   __get key dflt now st = (Ok (default dflt (_data st !! key)), (_update now st).2)).
Proof.
  rewrite get_eq. destruct (is_ready st), (strict st); simpl; auto.
Qed.

Lemma get_sent key dflt now st :
  let st' := (__get key dflt now st).2 in
  st' = st \/
  (_last_update st + pushall_timeout st <= now /\ _last_update st' = now /\
   pushall_timeout st' = pushall_timeout st /\
   command_topic st' = command_topic st /\
   sent (_client st') =
     sent (_client st) ++ (if connected (_client st) then [refresh_message st] else [])).
Proof.
  destruct (get_cases key dflt now st) as [(_ & _ & ->)|(_ & ->)]; simpl; [by left|].
  destruct (update_cases now st) as (_ & _ & _ & Ht & Hc & _ & _ & [[_ ->]|(Hd & Hl & Hs)]);
    [by left|right; done].
Qed.

(** C2, as amended: two reads whose time stamps are less than the refresh
    interval apart publish between them nothing or one full-refresh
    request.  A read made once the interval has elapsed, and which strict
    mode does not reject, returns the snapshot's value or the default and
    takes the time stamp; it publishes exactly one full-refresh request
    when the transport is connected and none when it is not. *)
Theorem refresh_throttle (st : PrinterMQTTClient)
    (k1 : string) (d1 : value) (t1 : Z) (k2 : string) (d2 : value) (t2 : Z) :
  let st1 := (__get k1 d1 t1 st).2 in
  let st2 := (__get k2 d2 t2 st1).2 in
  (Z.abs (t2 - t1) < pushall_timeout st ->
     published st st2 = [] \/ published st st2 = [refresh_message st]) /\
  (_last_update st + pushall_timeout st <= t1 ->
   strict st = false \/ is_ready st = true ->
     (__get k1 d1 t1 st).1 = Ok (default d1 (_data st !! k1)) /\
     _last_update st1 = t1 /\
     published st st1 =
       if connected (_client st) then [refresh_message st] else []).
Proof.
  intros st1 st2. split.
  - intros Hnear.
    assert (Hone : forall l, l = (if connected (_client st) then [refresh_message st] else []) ->
                   l = [] \/ l = [refresh_message st]).
    { intros l ->. destruct (connected _); auto. }
    pose proof (get_sent k1 d1 t1 st) as H1.
    pose proof (get_sent k2 d2 t2 st1) as H2.
    cbv zeta in H1, H2. fold st1 in H1. fold st2 in H2. clearbody st1 st2.
    destruct H1 as [E1|(Hd1 & Hl1 & Ht1 & Hc1 & Hs1)].
    + subst st1. destruct H2 as [E2|(_ & _ & _ & _ & Hs2)].
      * rewrite E2. left. apply published_refl.
      * apply Hone. by apply published_app.
    + destruct H2 as [E2|(Hd2 & _)].
      * rewrite E2. apply Hone. by apply published_app.
      * lia.
  - intros Hdue Hrun.
    destruct (get_cases k1 d1 t1 st) as [(Hr & Hs & _)|(_ & E)].
    { destruct Hrun; congruence. }
    subst st1. rewrite E. simpl. split; [done|].
    destruct (update_cases t1 st) as (_ & _ & _ & _ & _ & _ & _ & [[Hn _]|(_ & Hl & Hs)]);
      [lia|].
    split; [done|]. by apply published_app.
Qed.

(** C3, as amended: in non-strict mode a read on an empty snapshot returns
    the given default and leaves the snapshot empty, and it runs the
    throttle like any read: inside the interval the client is unchanged;
    once the interval has elapsed the time stamp becomes the time of the
    read and a full-refresh request is published if the transport is
    connected. *)
Theorem read_before_first_report (st : PrinterMQTTClient)
    (key : string) (dflt : value) (now : Z) :
  strict st = false ->
  is_ready st = false ->
  let st' := (__get key dflt now st).2 in
  (__get key dflt now st).1 = Ok dflt /\
  _data st' = _data st /\
  (_last_update st + pushall_timeout st > now -> st' = st) /\
  (_last_update st + pushall_timeout st <= now ->
     _last_update st' = now /\
     published st st' =
       if connected (_client st) then [refresh_message st] else []).
Proof.
  intros Hs Hr st'.
  assert (Hempty : _data st !! key = None).
  { unfold is_ready in Hr. apply orb_false_iff in Hr as [Hr _].
    apply negb_false_iff, bool_decide_eq_true in Hr. rewrite Hr. apply lookup_empty. }
  destruct (get_cases key dflt now st) as [(_ & Hs' & _)|(_ & E)]; [congruence|].
  subst st'. rewrite E. simpl. rewrite Hempty. split; [done|].
  destruct (update_cases now st) as (Hd & _ & _ & _ & _ & _ & _ & [[Hn ->]|(Hdue & Hl & Hsent)]).
  - split; [done|]. split; [done|]. lia.
  - split; [done|]. split; [lia|]. intros _. split; [done|]. by apply published_app.
Qed.

Lemma manual_update_without_print doc st :
  ~ carries_print doc ->
  (manual_update doc st).2 = st /\
  (forall kvs, doc = VDict kvs -> manual_update doc st = (Ok tt, st)).
Proof.
  intros Hno. unfold manual_update, bind, lift, ret.
  destruct doc as [| | | |s|l|kvs]; simpl; try (split; [done|discriminate]).
  - destruct (bool_decide _); simpl; (split; [done|discriminate]).
  - destruct (existsb _ l); simpl; (split; [done|discriminate]).
  - destruct (dict_lookup kvs "print") as [sec|] eqn:Hp.
    + destruct Hno. exists sec. simpl. by rewrite Hp.
    + rewrite bool_decide_eq_false_2 by (intros [x Hx]; discriminate).
      split; [reflexivity|]. intros kvs0 _. reflexivity.
Qed.

Lemma list_mentions_print (l : list value) :
  existsb (fun x => match x with VStr s => String.eqb s "print" | _ => false end) l = true
  <-> In (VStr "print") l.
Proof.
  rewrite existsb_exists. split.
  - intros (x & Hin & Hx). destruct x; try discriminate.
    by apply String.eqb_eq in Hx as ->.
  - intros Hin. exists (VStr "print"). split; [done|]. apply String.eqb_refl.
Qed.

(** C4, as amended: a payload whose decoded document carries no ["print"]
    section leaves the client as it was.  If the document is a JSON object
    the call returns normally, whatever the shape of its other members.
    A payload that does not decode raises the decoder's error; one that
    decodes to null, a boolean or a number raises [TypeError]; so does a
    string that contains [print] and an array with the element
    ["print"], while any other string or array is ignored. *)
Theorem message_without_print (st : PrinterMQTTClient) (payload : string) :
  (forall doc, json_loads payload = Ok doc -> ~ carries_print doc) ->
  (_on_message payload st).2 = st /\
  (forall kvs, json_loads payload = Ok (VDict kvs) ->
     _on_message payload st = (Ok tt, st)) /\
  (forall e, json_loads payload = Raise e ->
     _on_message payload st = (Raise e, st)) /\
  (forall doc, json_loads payload = Ok doc ->
     doc = VNone \/ (exists b, doc = VBool b) \/ (exists z, doc = VInt z) \/
     (exists f, doc = VFloat f) ->
     _on_message payload st = (Raise TypeError, st)) /\
  (forall s, json_loads payload = Ok (VStr s) ->
     _on_message payload st =
       match String.index 0 "print" s with
       | Some _ => (Raise TypeError, st)
       | None => (Ok tt, st)
       end) /\
  (forall l, json_loads payload = Ok (VList l) ->
     (In (VStr "print") l -> _on_message payload st = (Raise TypeError, st)) /\
     (~ In (VStr "print") l -> _on_message payload st = (Ok tt, st))).
Proof.
  intros Hno. unfold _on_message, bind, lift.
  destruct (json_loads payload) as [doc|e] eqn:Hl; simpl.
  2: { split; [done|]. split; [discriminate|]. split; [by intros e' [= ->]|].
       repeat split; discriminate. }
  destruct (manual_update_without_print doc st (Hno doc eq_refl)) as [Hst Hdict].
  split; [by destruct (manual_update doc st) as [[[]|e] st']; simpl in *; subst|].
  split; [intros kvs [= ->]; by rewrite (Hdict kvs eq_refl)|].
  split; [discriminate|].
  split; [|split].
  - intros doc' [= <-] [->|[[b ->]|[[z ->]|[f ->]]]]; reflexivity.
  - intros s [= ->]. unfold manual_update, bind, lift, ret, py_contains.
    destruct (String.index 0 "print" s) as [n|].
    + by rewrite bool_decide_eq_true_2 by eauto.
    + by rewrite bool_decide_eq_false_2 by (intros [x Hx]; discriminate).
  - intros l [= ->]. unfold manual_update, bind, lift, ret, py_contains.
    split; intros Hin.
    + apply list_mentions_print in Hin. by rewrite Hin.
    + destruct (existsb _ l) eqn:E; [|done].
      apply list_mentions_print in E. done.
Qed.

Lemma testbit_outside_1_3 (c n : Z) :
  0 <= c < 16 -> Z.even c = true ->
  n <> 1 -> n <> 2 -> n <> 3 -> Z.testbit c n = false.
Proof.
  intros Hc He H1 H2 H3.
  destruct (Z.lt_ge_cases n 0) as [Hn|Hn]; [by apply Z.testbit_neg_r|].
  destruct (Z.eq_dec n 0) as [->|H0].
  - rewrite Z.bit0_odd, <- Z.negb_even, He. done.
  - destruct (Z.eq_dec c 0) as [->|Hc0]; [apply Z.bits_0|].
    apply Z.bits_above_log2; [lia|].
    apply Z.log2_lt_pow2; [lia|].
    apply Z.lt_le_trans with (2 ^ 4); [simpl; lia|].
    apply Z.pow_le_mono_r; lia.
Qed.

(** C6: [calibration] publishes the document
    [{"print": {"command": "calibration", "option": option}}], whose
    option has bit 1 for bed levelling, bit 2 for vibration compensation,
    bit 3 for motor noise, and no other bit; bed and vibration without
    motor noise give 6.  On a connected transport that document is the one
    message handed over and the result is its confirmation; a transport
    that is down takes nothing and the result is false. *)
Theorem calibration_option_bits (st : PrinterMQTTClient)
    (bed_levelling motor_noise_cancellation vibration_compensation : bool) :
  let option := calibration_bitmask bed_levelling motor_noise_cancellation
                                    vibration_compensation in
  let doc := VDict [("print", VDict [("command", VStr "calibration");
                                     ("option", VInt option)])] in
  let call := calibration bed_levelling motor_noise_cancellation
                          vibration_compensation in
  call st = __publish_command (calibration_doc option) st /\
  calibration_doc option = doc /\
  (connected (_client st) = true ->
     (call st).1 = Ok (acks (_client st) (length (sent (_client st)))) /\
     published st (call st).2 = [(command_topic st, doc)]) /\
  (connected (_client st) = false -> call st = (Ok false, st)) /\
  Z.testbit option 1 = bed_levelling /\
  Z.testbit option 2 = vibration_compensation /\
  Z.testbit option 3 = motor_noise_cancellation /\
  (forall n, n <> 1 -> n <> 2 -> n <> 3 -> Z.testbit option n = false) /\
  calibration_bitmask true false true = 6.
Proof.
  intros option doc call. split; [done|]. split; [done|].
  split; [intros Hc; by apply publish_command_connected|].
  split; [intros Hc; by apply publish_command_offline|].
  subst option.
  destruct bed_levelling, motor_noise_cancellation, vibration_compensation;
    (do 3 (split; [reflexivity|])); (split; [|reflexivity]);
    intros n; (apply testbit_outside_1_3; [cbv; split; congruence|reflexivity]).
Qed.


(** C10: [Printer.start_print_min] publishes a document whose [use_ams] is
    true, [ams_mapping] is [[0]] and [skip_objects] is null whatever the
    caller passed, while [bed_leveling], [flow_cali] and [vibration_cali]
    hold the caller's [use_ams], [ams_mapping] and [skip_objects]. *)
Theorem start_print_min_binds_by_position (st : PrinterMQTTClient)
    (filename : string) (plate_number use_ams ams_mapping skip_objects : value)
    (plate : Z) :
  py_int plate_number = Ok plate ->
  exists doc,
    start_print_min filename plate_number use_ams ams_mapping skip_objects st =
      __publish_command doc st /\
    document_field doc "use_ams" = Some (VBool true) /\
    document_field doc "ams_mapping" = Some (VList [VInt 0]) /\
    document_field doc "skip_objects" = Some VNone /\
    document_field doc "bed_leveling" = Some use_ams /\
    document_field doc "flow_cali" = Some ams_mapping /\
    document_field doc "vibration_cali" = Some skip_objects.
Proof.
  intros Hplate.
  exists (project_file_doc filename plate use_ams default_bed_type ams_mapping
            skip_objects true [VInt 0] VNone).
  split; [|repeat split].
  unfold start_print_min, start_print_3mf, bind, lift. rewrite Hplate. reflexivity.
Qed.

End ClientFacts.

(* ================================================================== *)
(** * Properties of the AMS parser *)
(* ================================================================== *)

Section AmsFacts.
Context `{RT : Runtime}.

Lemma obind_ok {A B} (o : outcome A) (k : A -> outcome B) b :
  obind o k = Ok b -> exists a, o = Ok a /\ k a = Ok b.
Proof. destruct o; simpl; [eauto|discriminate]. Qed.

(** One turn of the tray loop. *)
Lemma process_trays_cons ams j0 tray rest ams' :
  process_trays ams j0 (tray :: rest) = Ok ams' ->
  exists i n ams1,
    id_of j0 tray = Ok i /\ py_get tray "n" VNone = Ok n /\
    (if truthy n
     then exists ft, from_dict tray = Ok ft /\ ams1 = set_filament_tray ams i ft
     else ams1 = ams) /\
    process_trays ams1 (j0 + 1) rest = Ok ams'.
Proof.
  simpl. intros H.
  apply obind_ok in H as (i & Hi & H).
  apply obind_ok in H as (n & Hn & H).
  apply obind_ok in H as (ams1 & H1 & H).
  exists i, n, ams1. repeat split; try done.
  destruct (truthy n).
  - apply obind_ok in H1 as (ft & Hft & [= <-]). eauto.
  - by injection H1.
Qed.

Lemma process_trays_frame ams j0 trays ams' :
  process_trays ams j0 trays = Ok ams' ->
  humidity ams' = humidity ams /\ temperature ams' = temperature ams.
Proof.
  revert ams j0. induction trays as [|tray rest IH]; intros ams j0 H.
  - by injection H as <-.
  - apply process_trays_cons in H as (i & n & ams1 & _ & _ & H1 & H).
    apply IH in H as [-> ->].
    destruct (truthy n); [destruct H1 as (ft & _ & ->)|subst ams1]; done.
Qed.

Lemma process_trays_other ams j0 trays ams' i :
  process_trays ams j0 trays = Ok ams' ->
  (forall j tray i', trays !! j = Some tray ->
     id_of (j0 + Z.of_nat j) tray = Ok i' -> i' <> i) ->
  filament_trays ams' !! i = filament_trays ams !! i.
Proof.
  revert ams j0. induction trays as [|tray rest IH]; intros ams j0 H Hother.
  - by injection H as <-.
  - apply process_trays_cons in H as (i' & n & ams1 & Hi & _ & H1 & H).
    rewrite (IH _ _ H).
    + assert (i' <> i) as Hne.
      { apply (Hother 0%nat tray); [done|]. by rewrite Z.add_0_r. }
      destruct (truthy n); [destruct H1 as (ft & _ & ->)|by subst ams1].
      simpl. by apply lookup_insert_ne.
    + intros j t i'' Hj Hid. apply (Hother (S j) t); [done|].
      rewrite <- Hid. f_equal. lia.
Qed.

Lemma process_trays_slot ams j0 trays ams' j tray i n :
  process_trays ams j0 trays = Ok ams' ->
  trays !! j = Some tray ->
  id_of (j0 + Z.of_nat j) tray = Ok i ->
  py_get tray "n" VNone = Ok n ->
  (forall j' tray' i', j' <> j -> trays !! j' = Some tray' ->
     id_of (j0 + Z.of_nat j') tray' = Ok i' -> i' <> i) ->
  if truthy n
  then exists ft, from_dict tray = Ok ft /\ filament_trays ams' !! i = Some ft
  else filament_trays ams' !! i = filament_trays ams !! i.
Proof.
  revert ams j0 j. induction trays as [|t rest IH]; intros ams j0 j H Hj Hid Hn Huniq.
  - done.
  - apply process_trays_cons in H as (i' & n' & ams1 & Hi & Hn' & H1 & H).
    destruct j as [|j]; simpl in Hj.
    + injection Hj as ->. rewrite Z.add_0_r in Hid.
      assert (i' = i) as -> by congruence. assert (n' = n) as -> by congruence.
      assert (Hrest : filament_trays ams' !! i = filament_trays ams1 !! i).
      { apply (process_trays_other _ _ _ _ _ H).
        intros j' t' i'' Hj' Hid'. apply (Huniq (S j') t'); [done|done|].
        rewrite <- Hid'. f_equal. lia. }
      rewrite Hrest. destruct (truthy n).
      * destruct H1 as (ft & Hft & ->). exists ft. split; [done|].
        simpl. apply lookup_insert_eq.
      * by subst ams1.
    + assert (i' <> i) as Hne.
      { apply (Huniq 0%nat t); [done|done|]. by rewrite Z.add_0_r. }
      assert (Hhead : filament_trays ams1 !! i = filament_trays ams !! i).
      { destruct (truthy n'); [destruct H1 as (ft & _ & ->)|by subst ams1].
        simpl. by apply lookup_insert_ne. }
      specialize (IH ams1 (j0 + 1) j H Hj).
      rewrite <- Hhead.
      apply IH; [rewrite <- Hid; f_equal; lia|done|].
      intros j' t' i'' Hne' Hj' Hid'. apply (Huniq (S j') t'); [lia|done|].
      rewrite <- Hid'. f_equal. lia.
Qed.

Lemma process_units_cons k v rest st :
  process_units k (v :: rest) st =
    match process_unit k v with
    | Ok u => process_units (k + 1) rest
                (set_ams_hub (<[u.1 := u.2]> (ams_hub st)) st)
    | Raise e => (Raise e, st)
    end.
Proof. simpl. unfold bind, lift, modify. by destruct (process_unit k v). Qed.

Lemma process_units_other k units st i :
  (forall j v u, units !! j = Some v ->
     process_unit (k + Z.of_nat j) v = Ok u -> u.1 <> i) ->
  ams_hub (process_units k units st).2 !! i = ams_hub st !! i.
Proof.
  revert k st. induction units as [|v rest IH]; intros k st Hother; [done|].
  rewrite process_units_cons.
  destruct (process_unit k v) as [u|e] eqn:Hu; [|done].
  rewrite IH.
  - simpl. apply lookup_insert_ne. apply (Hother 0%nat v); [done|].
    by rewrite Z.add_0_r.
  - intros j v' u' Hj Hu'. apply (Hother (S j) v'); [done|].
    rewrite <- Hu'. f_equal. lia.
Qed.

Lemma process_units_unit k units st j v i a :
  (process_units k units st).1 = Ok tt ->
  units !! j = Some v ->
  process_unit (k + Z.of_nat j) v = Ok (i, a) ->
  (forall j' v' u, j' <> j -> units !! j' = Some v' ->
     process_unit (k + Z.of_nat j') v' = Ok u -> u.1 <> i) ->
  ams_hub (process_units k units st).2 !! i = Some a.
Proof.
  revert k st j. induction units as [|v0 rest IH]; intros k st j Hok Hj Hu Huniq; [done|].
  rewrite process_units_cons in Hok |- *.
  destruct (process_unit k v0) as [u0|e] eqn:Hu0; [|discriminate].
  destruct j as [|j]; simpl in Hj.
  - injection Hj as ->. rewrite Z.add_0_r in Hu.
    assert (u0 = (i, a)) as -> by congruence.
    rewrite process_units_other.
    + simpl. apply lookup_insert_eq.
    + intros j' v' u' Hj' Hu'. apply (Huniq (S j') v'); [done|done|].
      rewrite <- Hu'. f_equal. lia.
  - apply (IH _ _ j); [done|done|rewrite <- Hu; f_equal; lia|].
    intros j' v' u' Hne Hj' Hu'. apply (Huniq (S j') v'); [lia|done|].
    rewrite <- Hu'. f_equal. lia.
Qed.

Lemma process_ams_eq now st :
  is_ready st = true \/ strict st = false ->
  process_ams now st =
    rebuild_hub (default VNone (_data st !! "ams"))
                (set_ams_hub ∅ (_update now st).2).
Proof.
  intros Hrun. unfold process_ams.
  destruct (get_cases "ams" VNone now st) as [(Hr & Hs & _)|(_ & E)].
  { destruct Hrun; congruence. }
  unfold bind at 1. rewrite E. reflexivity.
Qed.

Lemma update_set_ams_hub h now st :
  _update now (set_ams_hub h st) =
    ((_update now st).1, set_ams_hub h (_update now st).2).
Proof.
  rewrite !update_eq. simpl.
  destruct (_last_update st + pushall_timeout st >? now); [done|].
  unfold __publish_command. simpl. by destruct (connected (_client st)).
Qed.

Lemma process_ams_replaces h now st :
  is_ready st = true \/ strict st = false ->
  process_ams now (set_ams_hub h st) = process_ams now st.
Proof.
  intros Hrun. rewrite !process_ams_eq by done.
  rewrite update_set_ams_hub. reflexivity.
Qed.

Lemma rebuild_hub_absent ams_info st :
  no_ams ams_info = Ok true -> rebuild_hub ams_info st = (Ok tt, st).
Proof. intros H. unfold rebuild_hub, bind, lift. by rewrite H. Qed.

Lemma rebuild_hub_units ams_info units st :
  no_ams ams_info = Ok false ->
  py_get ams_info "ams" (VList []) = Ok (VList units) ->
  rebuild_hub ams_info st = process_units 0 units st.
Proof. intros H1 H2. unfold rebuild_hub, bind, lift. by rewrite H1, H2. Qed.

Lemma process_unit_ok k v id unit_ :
  process_unit k v = Ok (id, unit_) ->
  id_of k v = Ok id /\
  obind (py_get v "humidity" (VInt 0)) py_int = Ok (humidity unit_) /\
  obind (py_get v "temp" (VFloat 0%float)) py_float = Ok (temperature unit_) /\
  exists trays,
    py_get v "tray" (VList []) = Ok trays /\
    if truthy trays
    then exists l, py_iter trays = Ok l /\
           process_trays (AMS_new (humidity unit_) (temperature unit_)) 0 l = Ok unit_
    else filament_trays unit_ = ∅.
Proof.
  unfold process_unit. intros H.
  apply obind_ok in H as (h & Hh & H).
  apply obind_ok in H as (hum & Hhum & H).
  apply obind_ok in H as (t & Ht & H).
  apply obind_ok in H as (temp & Htemp & H).
  apply obind_ok in H as (i & Hi & H).
  apply obind_ok in H as (trays & Htrays & H).
  apply obind_ok in H as (a & Ha & [= <- <-]).
  assert (humidity a = hum /\ temperature a = temp) as [-> ->].
  { destruct (truthy trays).
    - apply obind_ok in Ha as (l & _ & Ha). by apply process_trays_frame in Ha.
    - by injection Ha as <-. }
  split; [done|]. rewrite Hh, Ht. simpl. split; [done|]. split; [done|].
  exists trays. split; [done|].
  destruct (truthy trays).
  - apply obind_ok in Ha as (l & Hl & Ha). rewrite Hl in *. eauto.
  - by injection Ha as <-.
Qed.

Lemma no_ams_zero members :
  default (VStr "0") (dict_lookup members "ams_exist_bits") = VStr "0" ->
  no_ams (VDict members) = Ok true.
Proof.
  intros H. unfold no_ams. destruct (negb (truthy (VDict members))); [done|].
  simpl. by rewrite H.
Qed.

(** C9: when the read of the fragment is not rejected by strict mode,
    [process_ams] does not depend on the hub it finds; an absent fragment,
    or one whose [ams_exist_bits] is ["0"], gives the empty hub; and when
    every unit parses, a unit whose id no other unit has is in the hub
    under that id, in which a slot (with an id of its own) whose ["n"] is
    empty is missing and one whose ["n"] is not empty holds what
    [from_dict] made of it. *)
Theorem process_ams_rebuilds_hub (st : PrinterMQTTClient) (now : Z) :
  is_ready st = true \/ strict st = false ->
  let st' := (process_ams now st).2 in
  (forall h, process_ams now (set_ams_hub h st) = process_ams now st) /\
  (_data st !! "ams" = None ->
     (process_ams now st).1 = Ok tt /\ ams_hub st' = ∅) /\
  (forall members,
     _data st !! "ams" = Some (VDict members) ->
     default (VStr "0") (dict_lookup members "ams_exist_bits") = VStr "0" ->
     (process_ams now st).1 = Ok tt /\ ams_hub st' = ∅) /\
  (forall members units k v id unit_,
     _data st !! "ams" = Some (VDict members) ->
     no_ams (VDict members) = Ok false ->
     dict_lookup members "ams" = Some (VList units) ->
     (process_ams now st).1 = Ok tt ->
     units !! k = Some v ->
     process_unit (Z.of_nat k) v = Ok (id, unit_) ->
     (forall k' v' u, k' <> k -> units !! k' = Some v' ->
        process_unit (Z.of_nat k') v' = Ok u -> u.1 <> id) ->
     ams_hub st' !! id = Some unit_ /\
     forall trays j tray i n,
       py_get v "tray" (VList []) = Ok (VList trays) ->
       trays !! j = Some tray ->
       id_of (Z.of_nat j) tray = Ok i ->
       py_get tray "n" VNone = Ok n ->
       (forall j' tray' i', j' <> j -> trays !! j' = Some tray' ->
          id_of (Z.of_nat j') tray' = Ok i' -> i' <> i) ->
       if truthy n
       then exists ft, from_dict tray = Ok ft /\ filament_trays unit_ !! i = Some ft
       else filament_trays unit_ !! i = None).
Proof.
  intros Hrun st'. subst st'. rewrite (process_ams_eq now st Hrun).
  split; [intros h; rewrite <- (process_ams_eq now st Hrun); by apply process_ams_replaces|].
  split; [|split].
  - intros ->. by rewrite rebuild_hub_absent.
  - intros members -> Hbits. by rewrite rebuild_hub_absent by by apply no_ams_zero.
  - intros members units k v id unit_ -> Hpresent Hunits Hok Hk Hv Huniq.
    cbn [default] in Hok |- *.
    rewrite (rebuild_hub_units (VDict members) units) in Hok |- *;
      [|done|by simpl; rewrite Hunits|done|by simpl; rewrite Hunits].
    split.
    + by apply (process_units_unit 0 units _ k v).
    + intros trays j tray i n Htrays Hj Hi Hn Hslot.
      apply process_unit_ok in Hv as (_ & _ & _ & trays' & Ht' & Hbuilt).
      assert (trays' = VList trays) as -> by congruence.
      destruct trays as [|t0 trays0]; [done|].
      cbn [truthy] in Hbuilt. destruct Hbuilt as (l & [= <-] & Hbuilt).
      pose proof (process_trays_slot _ 0 _ _ j tray i n Hbuilt Hj) as Hs.
      cbn [Z.add] in Hs. specialize (Hs Hi Hn Hslot).
      destruct (truthy n); [done|]. by rewrite Hs.
Qed.

End AmsFacts.

(* ================================================================== *)
(** * Further properties of the client *)
(* ================================================================== *)

Section MoreClientFacts.
Context `{RT : Runtime}.

(** ** Reports only add to the snapshot *)

Lemma data_setitem_grows key val st k v :
  _data st !! k = Some v ->
  exists v', _data (data_setitem key val st).2 !! k = Some v'.
Proof.
  intros Hk. destruct key as [| | | |s| |]; simpl; eauto.
  destruct (decide (s = k)) as [->|Hne].
  - exists val. apply lookup_insert_eq.
  - exists v. by rewrite lookup_insert_ne.
Qed.

Lemma data_setitem_frame key val st :
  let st' := (data_setitem key val st).2 in
  (_data_other st = true -> _data_other st' = true) /\
  _last_update st' = _last_update st /\ pushall_timeout st' = pushall_timeout st /\
  strict st' = strict st /\ command_topic st' = command_topic st /\
  ams_hub st' = ams_hub st /\ _client st' = _client st.
Proof. destruct key; simpl; repeat split; auto. Qed.

Lemma data_update_pairs_grows items st k v :
  _data st !! k = Some v ->
  exists v', _data (data_update_pairs items st).2 !! k = Some v'.
Proof.
  revert st v. induction items as [|item rest IH]; intros st v Hk; simpl; [eauto|].
  unfold bind, lift. destruct (py_iter item) as [kv|e]; simpl; [|eauto].
  destruct kv as [|a [|b [|c kv]]]; simpl; unfold raise; simpl; eauto.
  destruct (data_setitem_grows a b st k v Hk) as [v1 H1].
  destruct (data_setitem a b st) as [[[]|e] st1] eqn:Hs; simpl in *; eauto.
Qed.

Lemma data_update_pairs_frame items st :
  let st' := (data_update_pairs items st).2 in
  (_data_other st = true -> _data_other st' = true) /\
  _last_update st' = _last_update st /\ pushall_timeout st' = pushall_timeout st /\
  strict st' = strict st /\ command_topic st' = command_topic st /\
  ams_hub st' = ams_hub st /\ _client st' = _client st.
Proof.
  revert st. induction items as [|item rest IH]; intros st; simpl; [repeat split; auto|].
  unfold bind, lift. destruct (py_iter item) as [kv|e]; simpl; [|repeat split; auto].
  destruct kv as [|a [|b [|c kv]]]; simpl; unfold raise; simpl; try (repeat split; auto; fail).
  pose proof (data_setitem_frame a b st) as Hf. cbv zeta in Hf.
  destruct (data_setitem a b st) as [[[]|e] st1] eqn:Hs; simpl in *; [|exact Hf].
  specialize (IH st1). cbv zeta in IH.
  destruct Hf as (F1 & F2 & F3 & F4 & F5 & F6 & F7).
  destruct IH as (G1 & G2 & G3 & G4 & G5 & G6 & G7).
  repeat split; try congruence. auto.
Qed.

Lemma data_ior_grows other st k v :
  _data st !! k = Some v ->
  exists v', _data (data_ior other st).2 !! k = Some v'.
Proof.
  intros Hk.
  assert (Hpairs : forall o, exists v', _data ((do items <- lift o; data_update_pairs items) st).2 !! k = Some v').
  { intros [items|e]; unfold bind, lift; simpl; [|eauto].
    by apply data_update_pairs_grows with v. }
  destruct other as [| | | |s|l|kvs]; try apply Hpairs.
  simpl. rewrite foldl_insert_lookup.
  destruct (dict_lookup kvs k); eauto.
Qed.

Lemma data_ior_frame other st :
  let st' := (data_ior other st).2 in
  (_data_other st = true -> _data_other st' = true) /\
  _last_update st' = _last_update st /\ pushall_timeout st' = pushall_timeout st /\
  strict st' = strict st /\ command_topic st' = command_topic st /\
  ams_hub st' = ams_hub st /\ _client st' = _client st.
Proof.
  assert (Hpairs : forall o,
    let st' := ((do items <- lift o; data_update_pairs items) st).2 in
    (_data_other st = true -> _data_other st' = true) /\
    _last_update st' = _last_update st /\ pushall_timeout st' = pushall_timeout st /\
    strict st' = strict st /\ command_topic st' = command_topic st /\
    ams_hub st' = ams_hub st /\ _client st' = _client st).
  { intros [items|e]; unfold bind, lift; simpl; [|repeat split; auto].
    apply data_update_pairs_frame. }
  destruct other as [| | | |s|l|kvs]; try apply Hpairs.
  simpl. repeat split; auto.
Qed.

Lemma manual_update_steps doc st :
  (manual_update doc st).2 = st \/
  exists section, (manual_update doc st).2 = (data_ior section st).2.
Proof.
  unfold manual_update, bind, lift.
  destruct (py_contains "print" doc) as [[|]|e]; simpl; auto.
  destruct (py_getitem doc "print") as [section|e]; simpl; eauto.
Qed.

(** X1: a report never removes a field of the snapshot and never makes a ready
    client unready, and it touches nothing of the client but the snapshot,
    whatever its shape and whether or not the merge raises. *)
Theorem reports_only_add (st : PrinterMQTTClient) (doc : value) :
  let st' := (manual_update doc st).2 in
  (forall k v, _data st !! k = Some v -> exists v', _data st' !! k = Some v') /\
  (is_ready st = true -> is_ready st' = true) /\
  _last_update st' = _last_update st /\ pushall_timeout st' = pushall_timeout st /\
  strict st' = strict st /\ ams_hub st' = ams_hub st /\ _client st' = _client st.
Proof.
  intros st'. subst st'.
  destruct (manual_update_steps doc st) as [->|[section ->]].
  { repeat split; eauto. }
  pose proof (data_ior_frame section st) as (F1 & F2 & F3 & F4 & F5 & F6 & F7).
  split; [intros k v; apply data_ior_grows|].
  split; [|by repeat split].
  unfold is_ready. intros Hr. apply orb_true_iff in Hr as [Hr|Hr].
  - apply orb_true_iff. left. apply negb_true_iff, bool_decide_eq_false.
    apply negb_true_iff, bool_decide_eq_false in Hr.
    destruct (map_choose _ Hr) as (k & v & Hk).
    destruct (data_ior_grows section st k v Hk) as [v' Hv'].
    intros E. rewrite E in Hv'. by rewrite lookup_empty in Hv'.
  - rewrite (F1 Hr). apply orb_true_r.
Qed.

(** X2: merging the same report a second time changes nothing. *)
Theorem merge_idempotent (st : PrinterMQTTClient) (doc : value)
    (section : list (string * value)) :
  py_getitem doc "print" = Ok (VDict section) ->
  manual_update doc (manual_update doc st).2 = manual_update doc st.
Proof.
  intros Hsec.
  destruct doc as [| | | | | |kvs]; try discriminate. simpl in Hsec.
  destruct (dict_lookup kvs "print") as [sec|] eqn:Hp; [|discriminate].
  injection Hsec as ->.
  assert (Hrun : forall s, manual_update (VDict kvs) s =
                 (Ok tt, set_data (foldl (fun d kv => <[kv.1 := kv.2]> d) (_data s) section)
                                  (_data_other s) s)).
  { intros s. unfold manual_update, bind, lift, py_contains, py_getitem. rewrite Hp.
    rewrite bool_decide_eq_true_2 by eauto. done. }
  rewrite !Hrun. simpl. f_equal. unfold set_data. simpl. f_equal.
  apply map_eq. intros k. rewrite !foldl_insert_lookup.
  by destruct (dict_lookup section k).
Qed.

End MoreClientFacts.

Section SnapshotFrame.
Context `{RT : Runtime}.

Lemma keeps_ret {A} (a : A) : keeps_snapshot (ret a).
Proof. by intros st. Qed.

Lemma keeps_raise {A} e : keeps_snapshot (@raise _ A e).
Proof. by intros st. Qed.

Lemma keeps_lift {A} (o : outcome A) : keeps_snapshot (lift o).
Proof. by intros st. Qed.

Lemma keeps_gets {A} (f : PrinterMQTTClient -> A) : keeps_snapshot (gets f).
Proof. by intros st. Qed.

Lemma keeps_bind {A B} (m : M A) (k : A -> M B) :
  keeps_snapshot m -> (forall a, keeps_snapshot (k a)) -> keeps_snapshot (bind m k).
Proof.
  intros Hm Hk st. unfold bind. specialize (Hm st).
  destruct (m st) as [[a|e] st1]; simpl in *; [|done].
  destruct (Hk a st1) as (-> & -> & ->). done.
Qed.

Lemma keeps_if {A} (b : bool) (m1 m2 : M A) :
  keeps_snapshot m1 -> keeps_snapshot m2 -> keeps_snapshot (if b then m1 else m2).
Proof. by destruct b. Qed.

Lemma keeps_publish payload : keeps_snapshot (__publish_command payload).
Proof. intros st. unfold __publish_command. by destruct (connected _). Qed.

Lemma keeps_set_last_update t : keeps_snapshot (modify (set_last_update t)).
Proof. by intros st. Qed.

Lemma keeps_set_ams_hub f :
  keeps_snapshot (modify (fun st => set_ams_hub (f st) st)).
Proof. by intros st. Qed.

Lemma keeps_update now : keeps_snapshot (_update now).
Proof.
  unfold _update. apply keeps_bind; [apply keeps_gets|intros last].
  apply keeps_bind; [apply keeps_gets|intros timeout].
  apply keeps_if; [apply keeps_ret|].
  apply keeps_bind; [apply keeps_set_last_update|intros _]. apply keeps_publish.
Qed.

Lemma keeps_ready_guard {A} (func : M A) : keeps_snapshot func -> keeps_snapshot (__ready func).
Proof.
  intros Hf. unfold __ready. apply keeps_bind; [|by intros _].
  apply keeps_bind; [apply keeps_gets|intros r].
  apply keeps_if; [|apply keeps_ret].
  apply keeps_bind; [apply keeps_gets|intros s].
  apply keeps_if; [apply keeps_raise|apply keeps_ret].
Qed.

Lemma keeps_get key dflt now : keeps_snapshot (__get key dflt now).
Proof.
  unfold __get. apply keeps_ready_guard.
  apply keeps_bind; [apply keeps_update|intros _].
  apply keeps_bind; [apply keeps_gets|intros d]. apply keeps_ret.
Qed.

Lemma keeps_process_units k units : keeps_snapshot (process_units k units).
Proof.
  revert k. induction units as [|v rest IH]; intros k; simpl; [apply keeps_ret|].
  apply keeps_bind; [apply keeps_lift|intros u].
  apply keeps_bind; [apply keeps_set_ams_hub|intros _]. apply IH.
Qed.

Ltac keeps :=
  repeat first
    [ apply keeps_ret | apply keeps_raise | apply keeps_lift | apply keeps_gets
    | apply keeps_publish | apply keeps_get | apply keeps_update
    | apply keeps_process_units | apply keeps_set_ams_hub
    | apply keeps_if
    | apply keeps_bind; [|intros ?] ].

Lemma keeps_process_ams now : keeps_snapshot (process_ams now).
Proof.
  unfold process_ams.
  apply keeps_bind; [apply keeps_get|intros info].
  apply keeps_bind; [apply (keeps_set_ams_hub (fun _ => ∅))|intros _]. keeps.
Qed.

(** X3: no read and no command changes the snapshot or the strict flag. *)
Theorem only_reports_change_the_snapshot :
  (forall key dflt now, keeps_snapshot (__get key dflt now)) /\
  (forall now, keeps_snapshot (get_printer_state now)) /\
  (forall now, keeps_snapshot (pause_print now)) /\
  (forall now, keeps_snapshot (resume_print now)) /\
  (forall now, keeps_snapshot (process_ams now)) /\
  keeps_snapshot pushall /\
  keeps_snapshot stop_print /\
  (forall b m v, keeps_snapshot (calibration b m v)) /\
  (forall f p b fl vi bt u am sk, keeps_snapshot (start_print_3mf f p b fl vi bt u am sk)) /\
  (forall f p u am sk, keeps_snapshot (start_print_3mf_min f p u am sk)) /\
  (forall speed fan, keeps_snapshot (_set_fan_speed speed fan)) /\
  (forall t, keeps_snapshot (set_bed_temperature t)) /\
  (forall t, keeps_snapshot (set_nozzle_temperature t)) /\
  (forall h, keeps_snapshot (set_bed_height h)) /\
  keeps_snapshot auto_home /\
  (forall g, keeps_snapshot (send_gcode g)).
Proof.
  repeat apply conj; intros.
  - apply keeps_get.
  - unfold get_printer_state. keeps.
  - unfold pause_print, get_printer_state. keeps.
  - unfold resume_print, get_printer_state. keeps.
  - apply keeps_process_ams.
  - apply keeps_publish.
  - apply keeps_publish.
  - apply keeps_publish.
  - unfold start_print_3mf. keeps.
  - unfold start_print_3mf_min. keeps.
  - unfold _set_fan_speed, __send_gcode_line. destruct speed; keeps.
  - apply keeps_publish.
  - apply keeps_publish.
  - apply keeps_publish.
  - apply keeps_publish.
  - unfold send_gcode, __send_gcode_line. destruct g; keeps.
Qed.

End SnapshotFrame.

Section MoreFacts.
Context `{RT : Runtime}.

(** X4: inside the refresh interval, any run of reads leaves the client as it
    was, and unless strict mode rejects them the reads answer from the
    snapshot. *)
Theorem reads_inside_interval (st : PrinterMQTTClient)
    (reads : list (string * value * Z)) :
  Forall (fun r => _last_update st + pushall_timeout st > r.2) reads ->
  (read_all reads st).2 = st /\
  (is_ready st = true \/ strict st = false ->
     (read_all reads st).1 =
       Ok (map (fun r => default r.1.2 (_data st !! r.1.1)) reads)).
Proof.
  induction 1 as [|[[key dflt] now] rest Hnow _ [IHst IHres]]; [done|].
  simpl in Hnow. simpl. unfold bind at 1 3.
  destruct (get_cases key dflt now st) as [(Hr & Hs & ->)|(Hrun & ->)].
  - split; [done|]. intros [?|?]; congruence.
  - destruct (update_cases now st) as (_ & _ & _ & _ & _ & _ & _ & [[_ ->]|[Hdue _]]);
      [|lia].
    unfold bind, ret.
    destruct (read_all rest st) as [[vs|e] st'] eqn:Hrest; simpl in *; subst st'.
    + split; [done|]. intros _. specialize (IHres Hrun). by injection IHres as ->.
    + split; [done|]. intros _. by specialize (IHres Hrun).
Qed.

(** X5: the integer path of the fan setter.  A speed from 0 to 255 publishes
    [{"print": {"command": "gcode_line", "param": line}}] where [line] is
    [M106 P], the fan number, [ S], the speed and a line feed: on a
    connected transport that document is the one message handed over and
    the result is its confirmation.  Any other integer is a [ValueError]
    with the client untouched, and so is a speed that is not a number. *)
Theorem fan_speed_of_int (st : PrinterMQTTClient) (fan_num speed : Z) :
  let line := ("M106 P" ++ str_of_int fan_num ++ " S" ++ str_of_int speed ++ LF)%string in
  let doc := VDict [("print", VDict [("command", VStr "gcode_line");
                                     ("param", VStr line)])] in
  (0 <= speed <= 255 ->
     _set_fan_speed (VInt speed) fan_num st =
       __send_gcode_line (fan_line fan_num (str_of_int speed)) st /\
     _set_fan_speed (VInt speed) fan_num st = __publish_command doc st /\
     (connected (_client st) = true ->
        (_set_fan_speed (VInt speed) fan_num st).1 =
          Ok (acks (_client st) (length (sent (_client st)))) /\
        published st (_set_fan_speed (VInt speed) fan_num st).2 =
          [(command_topic st, doc)])) /\
  (speed < 0 \/ 255 < speed ->
     _set_fan_speed (VInt speed) fan_num st = (Raise ValueError, st)) /\
  _set_fan_speed VNone fan_num st = (Raise ValueError, st) /\
  (forall s, _set_fan_speed (VStr s) fan_num st = (Raise ValueError, st)).
Proof.
  intros line doc. unfold _set_fan_speed. repeat apply conj; try done.
  - intros [H0 H255].
    destruct (speed >? 255) eqn:E1; [lia|]. destruct (speed <? 0) eqn:E2; [lia|].
    cbn [orb]. repeat apply conj; try done.
    intros Hc. by apply publish_command_connected.
  - intros [H|H].
    + destruct (speed >? 255); [done|]. destruct (speed <? 0) eqn:E; [done|lia].
    + destruct (speed >? 255) eqn:E; [done|lia].
Qed.

(** X6: the option of the calibration command can be read back into the three
    flags, and [Printer.calibrate_printer] hands its flags over in the
    order [calibration] takes them. *)
Theorem calibration_round_trip (st : PrinterMQTTClient)
    (bed_level motor_noise_calibration vibration_compensation : bool) :
  calibration_flags
    (calibration_bitmask bed_level motor_noise_calibration vibration_compensation)
    = (bed_level, motor_noise_calibration, vibration_compensation) /\
  calibrate_printer bed_level motor_noise_calibration vibration_compensation st =
    __publish_command
      (calibration_doc
         (calibration_bitmask bed_level motor_noise_calibration
                              vibration_compensation)) st.
Proof.
  split; [|reflexivity].
  by destruct bed_level, motor_noise_calibration, vibration_compensation.
Qed.

Lemma py_join_strings sep (lines : list string) :
  py_join sep (map VStr lines) = Ok (String.concat sep lines).
Proof.
  induction lines as [|l rest IH]; [done|].
  cbn [map py_join]. destruct rest as [|l' rest']; [done|].
  change (map VStr (l' :: rest')) with (VStr l' :: map VStr rest') in *.
  rewrite IH. reflexivity.
Qed.

Lemma any_invalid_strings (lines : list string) :
  any_invalid (map VStr lines) = Ok (negb (forallb is_valid_gcode lines)).
Proof.
  induction lines as [|l rest IH]; [done|].
  cbn [map any_invalid is_valid_gcode_of obind forallb].
  destruct (is_valid_gcode l); simpl; [exact IH|done].
Qed.

(** X7: [send_gcode] sends all the lines, joined by line feeds in one command,
    or none: one invalid line is a [ValueError] with the client untouched. *)
Theorem send_gcode_all_or_nothing (st : PrinterMQTTClient) (lines : list string) :
  (forallb is_valid_gcode lines = true ->
     send_gcode (VList (map VStr lines)) st =
       (do sent_ <- __send_gcode_line (String.concat LF lines); ret (Some sent_)) st) /\
  (forallb is_valid_gcode lines = false ->
     send_gcode (VList (map VStr lines)) st = (Raise ValueError, st)) /\
  (forall line,
     send_gcode (VStr line) st =
       if is_valid_gcode line
       then (do sent_ <- __send_gcode_line line; ret (Some sent_)) st
       else (Raise ValueError, st)).
Proof.
  repeat split.
  - intros Hall. unfold send_gcode, bind at 1, lift.
    rewrite any_invalid_strings, Hall. cbn [negb].
    unfold bind at 1. by rewrite py_join_strings.
  - intros Hbad. unfold send_gcode, bind, lift.
    by rewrite any_invalid_strings, Hbad.
  - intros line. unfold send_gcode. by destruct (is_valid_gcode line).
Qed.

(** X8: [start_print_3mf] raises before it publishes when the plate number or
    the mapping cannot be converted; otherwise the document carries the
    plate path, the url, [bool(use_ams)], the mapping as a list, and a null
    in place of an empty skip list.  [start_print_3mf_min] is the same
    builder with the three calibration flags set. *)
Theorem start_print_checks_first (st : PrinterMQTTClient)
    (filename : string)
    (plate_number bed_leveling flow_calibration vibration_calibration bed_type
     use_ams ams_mapping skip_objects : value) :
  let call := start_print_3mf filename plate_number bed_leveling flow_calibration
                vibration_calibration bed_type use_ams ams_mapping skip_objects in
  (forall e, py_int plate_number = Raise e -> call st = (Raise e, st)) /\
  (forall plate e, py_int plate_number = Ok plate -> py_iter ams_mapping = Raise e ->
     call st = (Raise e, st)) /\
  (forall plate mapping,
     py_int plate_number = Ok plate -> py_iter ams_mapping = Ok mapping ->
     exists doc,
       call st = __publish_command doc st /\
       document_field doc "param" =
         Some (VStr ("Metadata/plate_" ++ str_of_int plate ++ ".gcode")%string) /\
       document_field doc "url" = Some (VStr ("ftp:///" ++ filename)%string) /\
       document_field doc "use_ams" = Some (VBool (truthy use_ams)) /\
       document_field doc "ams_mapping" = Some (VList mapping) /\
       document_field doc "skip_objects" =
         Some (if truthy skip_objects then skip_objects else VNone)) /\
  start_print_3mf_min filename plate_number use_ams ams_mapping skip_objects st =
    start_print_3mf filename plate_number (VBool true) (VBool true) (VBool true)
      (VStr "textured_plate") use_ams ams_mapping skip_objects st.
Proof.
  intros call. subst call. unfold start_print_3mf, bind, lift. repeat split.
  - intros e ->. done.
  - intros plate e -> ->. done.
  - intros plate mapping -> ->. eexists. split; [reflexivity|].
    repeat split. cbn. f_equal. unfold normalise_skip_objects.
    destruct skip_objects; try reflexivity;
      match goal with |- context [truthy ?v] => destruct (truthy v) end; reflexivity.
Qed.

End MoreFacts.

Section AmsAgain.
Context `{RT : Runtime}.

Lemma process_units_hub_only k units st st' :
  ams_hub st = ams_hub st' ->
  (process_units k units st).1 = (process_units k units st').1 /\
  ams_hub (process_units k units st).2 = ams_hub (process_units k units st').2.
Proof.
  revert k st st'. induction units as [|v rest IH]; intros k st st' Hh; [done|].
  rewrite !process_units_cons.
  destruct (process_unit k v) as [u|e]; [|done].
  apply IH. simpl. by rewrite Hh.
Qed.

Lemma rebuild_hub_hub_only ams_info st st' :
  ams_hub st = ams_hub st' ->
  (rebuild_hub ams_info st).1 = (rebuild_hub ams_info st').1 /\
  ams_hub (rebuild_hub ams_info st).2 = ams_hub (rebuild_hub ams_info st').2.
Proof.
  intros Hh. unfold rebuild_hub, bind, lift, ret.
  destruct (no_ams ams_info) as [[|]|e]; simpl; try done.
  destruct (py_get ams_info "ams" (VList [])) as [units_v|e]; simpl; [|done].
  destruct (py_iter units_v) as [units|e]; simpl; [|done].
  by apply process_units_hub_only.
Qed.

(** X9: parsing the hub a second time, at any later time, gives the same
    outcome and the same hub, and parsing never changes the snapshot. *)
Theorem process_ams_idempotent (st : PrinterMQTTClient) (t1 t2 : Z) :
  is_ready st = true \/ strict st = false ->
  let st1 := (process_ams t1 st).2 in
  (process_ams t2 st1).1 = (process_ams t1 st).1 /\
  ams_hub (process_ams t2 st1).2 = ams_hub st1 /\
  _data st1 = _data st.
Proof.
  intros Hrun st1.
  destruct (keeps_process_ams t1 st) as (Hd & Ho & Hs). fold st1 in Hd, Ho, Hs.
  assert (Hrun1 : is_ready st1 = true \/ strict st1 = false).
  { unfold is_ready. rewrite Hd, Ho, Hs. exact Hrun. }
  rewrite (process_ams_eq t2 st1 Hrun1), Hd.
  subst st1. rewrite (process_ams_eq t1 st Hrun).
  destruct (rebuild_hub_hub_only (default VNone (_data st !! "ams"))
              (set_ams_hub ∅ (_update t2 (rebuild_hub (default VNone (_data st !! "ams"))
                 (set_ams_hub ∅ (_update t1 st).2)).2).2)
              (set_ams_hub ∅ (_update t1 st).2) eq_refl) as [H1 H2].
  split; [exact H1|]. split; [exact H2|reflexivity].
Qed.

(** X10: a unit is in the hub under its id when no later unit has that id: of
    two units under one id the later one replaces the earlier. *)
Theorem later_unit_wins (st : PrinterMQTTClient) (units : list value)
    (k : nat) (v : value) (id : Z) (unit_ : AMS) :
  (process_units 0 units st).1 = Ok tt ->
  units !! k = Some v ->
  process_unit (Z.of_nat k) v = Ok (id, unit_) ->
  (forall k' v' u, (k < k')%nat -> units !! k' = Some v' ->
     process_unit (Z.of_nat k') v' = Ok u -> u.1 <> id) ->
  ams_hub (process_units 0 units st).2 !! id = Some unit_.
Proof.
  assert (Hgen : forall units base st k,
    (process_units base units st).1 = Ok tt ->
    units !! k = Some v ->
    process_unit (base + Z.of_nat k) v = Ok (id, unit_) ->
    (forall k' v' u, (k < k')%nat -> units !! k' = Some v' ->
       process_unit (base + Z.of_nat k') v' = Ok u -> u.1 <> id) ->
    ams_hub (process_units base units st).2 !! id = Some unit_).
  { clear. intros units. induction units as [|v0 rest IH]; intros base st k Hok Hk Hu Hlater;
      [done|].
    rewrite process_units_cons in Hok |- *.
    destruct (process_unit base v0) as [u0|e] eqn:Hu0; [|discriminate].
    destruct k as [|k]; simpl in Hk.
    - injection Hk as ->. rewrite Z.add_0_r in Hu.
      assert (u0 = (id, unit_)) as -> by congruence.
      rewrite process_units_other.
      + simpl. apply lookup_insert_eq.
      + intros j v' u' Hj Hu'. apply (Hlater (S j) v'); [lia|done|].
        rewrite <- Hu'. f_equal. lia.
    - apply (IH _ _ k); [done|done|rewrite <- Hu; f_equal; lia|].
      intros k' v' u' Hlt Hk' Hu'. apply (Hlater (S k') v'); [lia|done|].
      rewrite <- Hu'. f_equal. lia. }
  intros Hok Hk Hu Hlater. by apply (Hgen units 0 st k).
Qed.

End AmsAgain.

(* ================================================================== *)
(** * Further properties of the validator and of the lines sent *)
(* ================================================================== *)

(** X11: what follows the first [;] and the white space around a line do not
    change what the validator answers. *)
Theorem validator_ignores_comment_and_margins (line comment : string) (ws1 ws2 : string) :
  is_valid_gcode (line ++ ";" ++ comment) = is_valid_gcode line /\
  (all_space (list_ascii_of_string ws1) ->
   all_space (list_ascii_of_string ws2) ->
   is_valid_gcode (ws1 ++ line ++ ws2) = is_valid_gcode line).
Proof.
  split.
  - unfold is_valid_gcode.
    rewrite list_ascii_of_string_app. simpl list_ascii_of_string.
    change (list_ascii_of_string line ++ ";"%char :: list_ascii_of_string comment)
      with (list_ascii_of_string line ++ ";"%char :: list_ascii_of_string comment).
    by rewrite before_sep_cut.
  - intros H1 H2. unfold is_valid_gcode.
    rewrite !list_ascii_of_string_app.
    set (l := list_ascii_of_string line). set (w1 := list_ascii_of_string ws1) in *.
    set (w2 := list_ascii_of_string ws2) in *.
    assert (E : strip (before_sep ";" (w1 ++ l ++ w2)) = strip (before_sep ";" l));
      [|by rewrite E].
    rewrite before_sep_margin_l, strip_leading by done.
    destruct (before_sep_margin_r l w2 H2) as [->| ->]; [done|].
    by apply strip_trailing.
Qed.

Lemma token_chars_plain c :
  is_upper c = true \/ py_isdigit c = true \/ c = "-"%char \/ c = "."%char ->
  plain c.
Proof.
  destruct c as [[] [] [] [] [] [] [] []]; vm_compute; intuition discriminate.
Qed.

Lemma digits_plain ds : digits ds -> Forall plain ds.
Proof.
  intros [_ H]. eapply Forall_impl; [exact H|].
  intros c Hc. apply token_chars_plain. auto.
Qed.

Lemma parameter_token_plain p : parameter_token p -> Forall plain p.
Proof.
  intros (letter & sign & whole & frac & -> & Hl & Hs & Hw & Hf).
  constructor; [apply token_chars_plain; auto|].
  apply Forall_app. split.
  - destruct Hs as [->| ->]; repeat constructor; apply token_chars_plain; auto.
  - apply Forall_app. split; [by apply digits_plain|].
    destruct Hf as [->|(ds & -> & Hds)]; [constructor|].
    constructor; [apply token_chars_plain; auto|by apply digits_plain].
Qed.

Lemma digits_end ds : digits ds -> exists x d, ds = x ++ [d] /\ py_isspace d = false.
Proof.
  intros [Hne H]. destruct (exists_last Hne) as (x & d & ->).
  exists x, d. split; [done|].
  apply Forall_app in H as [_ H]. inversion H as [|? ? Hd _]; subst.
  apply (token_chars_plain d). auto.
Qed.

Lemma parameter_token_end p :
  parameter_token p -> exists x d, p = x ++ [d] /\ py_isspace d = false.
Proof.
  intros (letter & sign & whole & frac & -> & _ & _ & Hw & Hf).
  destruct Hf as [->|(ds & -> & Hds)].
  - destruct (digits_end whole Hw) as (x & d & -> & Hd).
    exists (letter :: sign ++ x), d. split; [|done].
    rewrite app_nil_r. simpl. by rewrite <- app_assoc.
  - destruct (digits_end ds Hds) as (x & d & -> & Hd).
    exists (letter :: sign ++ whole ++ "."%char :: x), d. split; [|done].
    simpl. rewrite <- !app_assoc. simpl. done.
Qed.

Lemma before_sep_none s :
  Forall (fun c => Ascii.eqb c ";" = false) s -> before_sep ";" s = s.
Proof.
  induction 1 as [|c s Hc _ IH]; simpl; [done|]. by rewrite Hc, IH.
Qed.

Lemma split_from_word cur w s :
  Forall plain w -> split_from cur (w ++ s) = split_from (rev w ++ cur) s.
Proof.
  intros Hw. revert cur. induction Hw as [|c w [Hc _] _ IH]; intros cur; simpl; [done|].
  rewrite Hc, IH. by rewrite <- app_assoc.
Qed.

Lemma split_from_spaced cur tokens :
  cur <> [] -> well_spaced tokens ->
  split_from cur (spaced tokens) = rev cur :: map snd tokens.
Proof.
  intros Hcur Htok. revert cur Hcur.
  induction Htok as [|[c p] rest (Hc & Hp & Hplain) _ IH]; intros cur Hcur.
  - simpl. by destruct cur.
  - unfold spaced. cbn [map concat fst snd]. cbn [app split_from].
    simpl in Hc. rewrite Hc. destruct cur as [|c0 cur0]; [done|].
    f_equal. fold (spaced rest). rewrite split_from_word by done.
    rewrite app_nil_r, IH.
    + by rewrite rev_involutive.
    + simpl in Hp. intros E. apply (f_equal (@rev ascii)) in E.
      rewrite rev_involutive in E. done.
Qed.

Lemma strip_plain_ends c s d :
  py_isspace c = false -> py_isspace d = false ->
  strip (c :: s ++ [d]) = c :: s ++ [d].
Proof.
  intros Hc Hd. unfold strip.
  assert (lstrip (c :: s ++ [d]) = c :: s ++ [d]) as -> by (simpl; by rewrite Hc).
  assert (rev (c :: s ++ [d]) = d :: rev (c :: s)) as ->.
  { rewrite app_comm_cons, rev_app_distr. reflexivity. }
  assert (lstrip (d :: rev (c :: s)) = d :: rev (c :: s)) as ->
    by (cbn [lstrip]; by rewrite Hd).
  change (d :: rev (c :: s)) with ([d] ++ rev (c :: s)).
  rewrite rev_app_distr, rev_involutive. reflexivity.
Qed.

Lemma spaced_end tokens c0 s0 d0 :
  py_isspace d0 = false ->
  Forall (fun t => exists x d, t.2 = x ++ [d] /\ py_isspace d = false) tokens ->
  exists x d, c0 :: s0 ++ [d0] ++ spaced tokens = c0 :: x ++ [d] /\ py_isspace d = false.
Proof.
  intros Hd0 Htok. revert s0 d0 Hd0.
  induction Htok as [|[c p] rest (x & d & Hp & Hd) _ IH]; intros s0 d0 Hd0.
  - exists s0, d0. simpl. by rewrite ?app_nil_r.
  - simpl in Hp. subst p. unfold spaced. cbn [map concat fst snd]. fold (spaced rest).
    destruct (IH (s0 ++ [d0] ++ c :: x) d Hd) as (x' & d' & E & Hd').
    exists x', d'. split; [|done]. rewrite <- E.
    f_equal. rewrite <- !app_assoc. simpl. by rewrite <- !app_assoc.
Qed.

(** The shape the validator wants, met by construction: a command
    letter and digits, then tokens each after one white space character,
    then white space.  Such a line is valid exactly when its tokens are
    parameters. *)
Lemma validator_on_spaced_line (c : ascii) (ds : chars)
    (tokens : list (ascii * chars)) (ws : chars) :
  c = "G"%char \/ c = "M"%char ->
  digits ds ->
  well_spaced tokens ->
  Forall (fun t => exists x d, t.2 = x ++ [d] /\ py_isspace d = false) tokens ->
  all_space ws ->
  is_valid_gcode (string_of_list_ascii (c :: ds ++ spaced tokens ++ ws)) =
    forallb (re_match parameter_pattern) (map snd tokens).
Proof.
  intros Hc Hds Htok Hend Hws.
  assert (Hcplain : plain c) by (destruct Hc as [->| ->]; by vm_compute).
  assert (Hsemi : Forall (fun c => Ascii.eqb c ";" = false) (c :: ds ++ spaced tokens ++ ws)).
  { constructor; [apply Hcplain|]. apply Forall_app. split.
    - eapply Forall_impl; [exact (digits_plain ds Hds)|]. by intros ? [_ ?].
    - apply Forall_app. split.
      + unfold spaced. apply Forall_concat, Forall_map.
        eapply Forall_impl; [exact Htok|]. intros [c' p] (Hc' & _ & Hp). simpl in *.
        constructor; [by apply space_not_semicolon|].
        eapply Forall_impl; [exact Hp|]. by intros ? [_ ?].
      + eapply Forall_impl; [exact Hws|]. intros ?. apply space_not_semicolon. }
  destruct (digits_end ds Hds) as (x0 & d0 & -> & Hd0).
  destruct (spaced_end tokens c x0 d0 Hd0 Hend) as (x & d & Ebody & Hd).
  unfold is_valid_gcode. rewrite list_ascii_of_string_of_list_ascii.
  rewrite (before_sep_none _ Hsemi).
  assert (Hstrip : strip (c :: (x0 ++ [d0]) ++ spaced tokens ++ ws) =
                   c :: (x0 ++ [d0]) ++ spaced tokens).
  { change (c :: (x0 ++ [d0]) ++ spaced tokens ++ ws)
      with ((c :: (x0 ++ [d0]) ++ spaced tokens ++ ws)).
    rewrite app_comm_cons, app_assoc, strip_trailing by done.
    rewrite <- app_comm_cons, <- app_assoc. rewrite Ebody.
    apply strip_plain_ends; [apply Hcplain|done]. }
  rewrite Hstrip.
  assert (Hcmd : re_match command_pattern (c :: (x0 ++ [d0]) ++ spaced tokens) = true).
  { apply command_pattern_spec. exists c, (x0 ++ [d0]), (spaced tokens). done. }
  rewrite Hcmd. cbn [negb orb].
  assert (Hsplit : split (c :: (x0 ++ [d0]) ++ spaced tokens) =
                   (c :: x0 ++ [d0]) :: map snd tokens).
  { unfold split. rewrite app_comm_cons.
    rewrite split_from_word by (constructor; [done|by apply digits_plain]).
    rewrite app_nil_r, split_from_spaced; [by rewrite rev_involutive| |done].
    intros E. apply (f_equal (@rev ascii)) in E. by rewrite rev_involutive in E. }
  rewrite Hsplit. reflexivity.
Qed.

Lemma uint_digits (d : Decimal.uint) :
  Forall (fun c => py_isdigit c = true)
    (list_ascii_of_string (DecimalString.NilEmpty.string_of_uint d)).
Proof. induction d; simpl; constructor; done. Qed.

Lemma str_of_int_shape (z : Z) :
  exists sign ds,
    list_ascii_of_string (str_of_int z) = sign ++ ds /\
    (sign = [] \/ sign = ["-"%char]) /\ digits ds.
Proof.
  assert (Hu : forall d, digits (list_ascii_of_string (DecimalString.NilZero.string_of_uint d))).
  { intros d. split.
    - destruct d; discriminate.
    - destruct d; simpl; (constructor; [reflexivity|]);
        first [apply uint_digits | constructor]. }
  unfold str_of_int. destruct (Z.to_int z) as [d|d]; simpl.
  - exists [], (list_ascii_of_string (DecimalString.NilZero.string_of_uint d)). auto.
  - exists ["-"%char], (list_ascii_of_string (DecimalString.NilZero.string_of_uint d)). auto.
Qed.

Lemma number_parameter (letter : ascii) (z : Z) :
  is_upper letter = true ->
  parameter_token (letter :: list_ascii_of_string (str_of_int z)).
Proof.
  intros Hl. destruct (str_of_int_shape z) as (sign & ds & -> & Hs & Hds).
  exists letter, sign, ds, []. rewrite app_nil_r. destruct Hds. repeat split; auto.
Qed.

Lemma validator_accepts_parameters (c : ascii) (ds : chars)
    (tokens : list (ascii * chars)) (ws : chars) :
  c = "G"%char \/ c = "M"%char ->
  digits ds ->
  Forall (fun t => py_isspace t.1 = true /\ parameter_token t.2) tokens ->
  all_space ws ->
  is_valid_gcode (string_of_list_ascii (c :: ds ++ spaced tokens ++ ws)) = true.
Proof.
  intros Hc Hds Htok Hws.
  rewrite validator_on_spaced_line; try done.
  - apply forallb_forall. intros p Hp. apply in_map_iff in Hp as ([s q] & <- & Hin).
    rewrite List.Forall_forall in Htok. destruct (Htok _ Hin) as [_ Hq]. simpl in *.
    apply parameter_pattern_spec; [|done].
    eapply Forall_impl; [exact (parameter_token_plain q Hq)|]. by intros ? [? _].
  - eapply Forall_impl; [exact Htok|]. intros [s q] [Hs Hq]. simpl in *.
    split; [done|]. split; [|by apply parameter_token_plain].
    destruct (parameter_token_end q Hq) as (x & d & -> & _). by destruct x.
  - eapply Forall_impl; [exact Htok|]. intros [s q] [_ Hq]. by apply parameter_token_end.
Qed.

Lemma string_as_chars (s : string) (l : chars) :
  list_ascii_of_string s = l -> s = string_of_list_ascii l.
Proof. intros <-. by rewrite string_of_list_ascii_of_string. Qed.

Section BuiltLines.
Context `{RT : Runtime}.

(** X12: the lines the temperature, bed height and fan setters build from an
    integer are lines the validator accepts, so [send_gcode] would send
    them unchanged; the line a [bool] fan speed gives is not. *)
Theorem built_lines_and_the_validator (st : PrinterMQTTClient)
    (temperature height fan_num speed : Z) :
  is_valid_gcode (temperature_line "M140" temperature) = true /\
  is_valid_gcode (temperature_line "M104" temperature) = true /\
  is_valid_gcode (bed_height_line height) = true /\
  is_valid_gcode (fan_line fan_num (str_of_int speed)) = true /\
  is_valid_gcode (fan_line fan_num "True") = false /\
  is_valid_gcode (fan_line fan_num "False") = false /\
  send_gcode (VStr (temperature_line "M140" temperature)) st =
    (do sent_ <- set_bed_temperature temperature; ret (Some sent_)) st.
Proof.
  assert (Hspace : py_isspace " " = true) by reflexivity.
  assert (Hlf : all_space [newline]) by (by repeat constructor).
  assert (Htemp : forall ds, digits ds ->
            is_valid_gcode (temperature_line (String "M" (string_of_list_ascii ds)) temperature)
            = true).
  { intros ds Hds.
    rewrite (string_as_chars _
               ("M"%char :: ds ++ spaced [(" "%char,
                   "S"%char :: list_ascii_of_string (str_of_int temperature))]
                ++ [newline])).
    - apply validator_accepts_parameters; auto.
      constructor; [|constructor]. split; [reflexivity|]. by apply number_parameter.
    - unfold temperature_line.
      rewrite !list_ascii_of_string_app. cbn [list_ascii_of_string].
      rewrite list_ascii_of_string_of_list_ascii.
      unfold spaced, LF. simpl. by rewrite <- !app_assoc. }
  assert (H140 : is_valid_gcode (temperature_line "M140" temperature) = true).
  { apply (Htemp ["1"; "4"; "0"]%char). split; [done|by repeat constructor]. }
  split; [exact H140|].
  split.
  { apply (Htemp ["1"; "0"; "4"]%char). split; [done|by repeat constructor]. }
  split.
  { rewrite (string_as_chars _
               ("G"%char :: ["9"; "0"]%char ++ spaced
                  [(newline, ["G"; "0"]%char);
                   (" "%char, "Z"%char :: list_ascii_of_string (str_of_int height))]
                ++ [newline])).
    - apply validator_accepts_parameters; auto.
      + split; [done|by repeat constructor].
      + constructor; [|constructor; [|constructor]].
        * split; [reflexivity|].
          exists "G"%char, [], ["0"%char], []. repeat split; auto; by repeat constructor.
        * split; [reflexivity|]. by apply number_parameter.
    - unfold bed_height_line.
      rewrite !list_ascii_of_string_app. unfold spaced, LF. simpl.
      by rewrite <- ?app_assoc. }
  assert (Hfan : forall tail_,
            fan_line fan_num (string_of_list_ascii tail_) =
            string_of_list_ascii
              ("M"%char :: ["1"; "0"; "6"]%char ++ spaced
                 [(" "%char, "P"%char :: list_ascii_of_string (str_of_int fan_num));
                  (" "%char, "S"%char :: tail_)] ++ [newline])).
  { intros tail_. apply string_as_chars.
    unfold fan_line.
    rewrite !list_ascii_of_string_app, list_ascii_of_string_of_list_ascii.
    unfold spaced, LF. simpl. rewrite ?app_nil_r. simpl. by rewrite <- ?app_assoc. }
  assert (Hbool : forall word,
            Forall plain word -> word <> [] ->
            (exists x d, word = x ++ [d] /\ py_isspace d = false) ->
            re_match parameter_pattern ("S"%char :: word) = false ->
            is_valid_gcode (fan_line fan_num (string_of_list_ascii word)) = false).
  { intros word Hplain Hne Hend Hno. rewrite Hfan.
    rewrite validator_on_spaced_line; auto.
    - cbn [map snd forallb]. rewrite Hno. by rewrite andb_false_r.
    - split; [done|by repeat constructor].
    - constructor; [|constructor; [|constructor]];
        (split; [reflexivity|]); (split; [done|]).
      + by apply parameter_token_plain, number_parameter.
      + constructor; [by vm_compute|done].
    - constructor; [|constructor; [|constructor]].
      + apply (parameter_token_end _ (number_parameter "P" fan_num eq_refl)).
      + destruct Hend as (x & d & -> & Hd). by exists ("S"%char :: x), d. }
  split.
  { rewrite <- (string_of_list_ascii_of_string (str_of_int speed)), Hfan.
    apply validator_accepts_parameters; auto.
    - split; [done|by repeat constructor].
    - constructor; [|constructor; [|constructor]];
        (split; [reflexivity|]); by apply number_parameter. }
  split.
  { apply (Hbool ["T"; "r"; "u"; "e"]%char); try done.
    - repeat constructor; by vm_compute.
    - by exists ["T"; "r"; "u"]%char, "e"%char. }
  split.
  { apply (Hbool ["F"; "a"; "l"; "s"; "e"]%char); try done.
    - repeat constructor; by vm_compute.
    - by exists ["F"; "a"; "l"; "s"]%char, "e"%char. }
  unfold send_gcode. rewrite H140. reflexivity.
Qed.

End BuiltLines.

(* ================================================================== *)
(** * The properties at concrete inputs *)
(* ================================================================== *)

Module Examples.
Import Sample Fixtures.

Lemma last_write_wins_witness :
  let st1 := (manual_update report1 client0).2 in
  let st2 := (manual_update report2 st1).2 in
  (__get "mc_percent" VNone 100 st2).1 = Ok (VInt 20) /\
  _data st2 !! "gcode_state" = _data st1 !! "gcode_state".
Proof.
  pose proof (last_write_wins client0 report1 report2
                [("mc_percent", VInt 20)] "mc_percent" (VInt 20) VNone 100
                eq_refl eq_refl) as (_ & Hread & Hkept).
  split; [exact Hread|]. apply Hkept. reflexivity.
Defined.

Lemma refresh_throttle_witness :
  let st := client0 in
  let st1 := (__get "mc_percent" VNone 1000 st).2 in
  let st2 := (__get "gcode_state" VNone 1030 st1).2 in
  (published st st2 = [] \/ published st st2 = [refresh_message st]) /\
  (__get "mc_percent" VNone 1000 st).1 = Ok VNone /\
  _last_update st1 = 1000 /\
  published st st1 = [refresh_message st].
Proof.
  pose proof (refresh_throttle client0 "mc_percent" VNone 1000 "gcode_state" VNone 1030)
    as [Hnear Hdue].
  split; [apply Hnear; reflexivity|].
  apply Hdue; [discriminate|left; reflexivity].
Defined.

(** The claim as stated fails: the interval has elapsed, the read goes
    through, and no refresh request reaches the transport, which is down;
    the time stamp is taken all the same. *)
Lemma refresh_lost_when_offline :
  let st := client_offline in
  let st' := (__get "mc_percent" VNone 1000 st).2 in
  _last_update st + pushall_timeout st <= 1000 /\
  (__get "mc_percent" VNone 1000 st).1 = Ok VNone /\
  published st st' = [] /\
  _last_update st' = 1000.
Proof. repeat split. discriminate. Qed.

Lemma read_before_first_report_witness :
  let st' := (__get "mc_percent" (VInt 7) 30 client0).2 in
  (__get "mc_percent" (VInt 7) 30 client0).1 = Ok (VInt 7) /\ st' = client0.
Proof.
  pose proof (read_before_first_report client0 "mc_percent" (VInt 7) 30 eq_refl eq_refl)
    as (Hret & _ & Hearly & _).
  split; [exact Hret|]. apply Hearly. reflexivity.
Defined.

(** The claim as stated fails: a non-strict read on an empty snapshot
    returns the default, and it publishes a refresh and moves the time
    stamp. *)
Lemma read_before_first_report_refreshes :
  let st := client0 in
  let st' := (__get "mc_percent" (VInt 7) 1000 st).2 in
  strict st = false /\ is_ready st = false /\
  (__get "mc_percent" (VInt 7) 1000 st).1 = Ok (VInt 7) /\
  published st st' = [refresh_message st] /\
  _last_update st = 0 /\ _last_update st' = 1000.
Proof. repeat split. Qed.

Lemma message_without_print_witness :
  json_loads other_report = Ok other_report_doc /\
  _on_message other_report client_paused = (Ok tt, client_paused) /\
  _on_message "{" client_paused = (Raise JSONDecodeError, client_paused) /\
  _on_message "12" client_paused = (Raise TypeError, client_paused) /\
  _on_message (quoted "print") client_paused = (Raise TypeError, client_paused) /\
  _on_message (quoted "info") client_paused = (Ok tt, client_paused).
Proof.
  assert (Hobject : json_loads other_report = Ok other_report_doc)
    by (vm_compute; reflexivity).
  assert (Hbroken : json_loads "{" = Raise JSONDecodeError)
    by (vm_compute; reflexivity).
  assert (Hnumber : json_loads "12" = Ok (VInt 12)) by (vm_compute; reflexivity).
  assert (Hprint : json_loads (quoted "print") = Ok (VStr "print"))
    by (vm_compute; reflexivity).
  assert (Hinfo : json_loads (quoted "info") = Ok (VStr "info"))
    by (vm_compute; reflexivity).
  assert (Hno : forall payload doc0,
            json_loads payload = Ok doc0 ->
            py_getitem doc0 "print" = Raise KeyError \/
            py_getitem doc0 "print" = Raise TypeError ->
            forall doc, json_loads payload = Ok doc -> ~ carries_print doc).
  { intros payload doc0 H0 Hg doc H [section Hs].
    rewrite H0 in H. injection H as <-. destruct Hg as [Hg|Hg]; congruence. }
  split; [exact Hobject|]. split; [|split; [|split; [|split]]].
  - refine (proj1 (proj2 (message_without_print client_paused other_report _)) _ Hobject).
    apply (Hno _ _ Hobject). left. reflexivity.
  - refine (proj1 (proj2 (proj2 (message_without_print client_paused "{" _))) _ Hbroken).
    intros doc H. rewrite Hbroken in H. discriminate H.
  - refine (proj1 (proj2 (proj2 (proj2 (message_without_print client_paused "12" _))))
              _ Hnumber _).
    + apply (Hno _ _ Hnumber). right. reflexivity.
    + right. right. left. by exists 12.
  - exact (proj1 (proj2 (proj2 (proj2 (proj2
             (message_without_print client_paused (quoted "print")
                (Hno _ _ Hprint (or_intror eq_refl)))))))
             _ Hprint).
  - exact (proj1 (proj2 (proj2 (proj2 (proj2
             (message_without_print client_paused (quoted "info")
                (Hno _ _ Hinfo (or_intror eq_refl)))))))
             _ Hinfo).
Defined.

(** The claim as stated fails: the payload [null] decodes to [None], which
    carries no ["print"] section, and processing it raises. *)
Lemma null_payload_raises :
  json_loads "null" = Ok VNone /\
  ~ carries_print VNone /\
  _on_message "null" client0 = (Raise TypeError, client0).
Proof.
  split; [reflexivity|]. split; [|reflexivity].
  intros [section Hs]. discriminate Hs.
Qed.

Lemma calibration_witness :
  published client0 (calibration true false true client0).2 =
    [("device/SN/request",
      VDict [("print", VDict [("command", VStr "calibration"); ("option", VInt 6)])])].
Proof.
  assert (Hup : connected (_client client0) = true) by reflexivity.
  exact (proj2 (proj1 (proj2 (proj2 (calibration_option_bits client0 true false true)))
                 Hup)).
Defined.


Lemma start_print_min_witness :
  exists doc,
    start_print_min "job.3mf" (VInt 2) (VBool false) (VList [VInt 3; VInt 1])
                    (VList [VInt 7]) client0 =
      __publish_command doc client0 /\
    document_field doc "use_ams" = Some (VBool true) /\
    document_field doc "ams_mapping" = Some (VList [VInt 0]) /\
    document_field doc "skip_objects" = Some VNone /\
    document_field doc "bed_leveling" = Some (VBool false) /\
    document_field doc "flow_cali" = Some (VList [VInt 3; VInt 1]) /\
    document_field doc "vibration_cali" = Some (VList [VInt 7]).
Proof.
  exact (start_print_min_binds_by_position client0 "job.3mf" (VInt 2) (VBool false)
           (VList [VInt 3; VInt 1]) (VList [VInt 7]) 2 eq_refl).
Defined.

(** C5: the code at the claim's inputs.  An integer speed gives the line
    with that speed, and 256 or 1.5 are refused, as claimed; but a fraction
    is divided into 255 instead of scaling it, so 0.5 gives S510, 0.25
    gives S1020, and 0.0 raises [ZeroDivisionError]. *)
Theorem fan_speed_fraction_is_divided :
  let st := client0 in
  let line (s : string) := [(command_topic st, gcode_line_doc (s ++ LF)%string)] in
  published st (_set_fan_speed (VFloat 0.5) 1 st).2 = line "M106 P1 S510" /\
  published st (_set_fan_speed (VFloat 0.25) 2 st).2 = line "M106 P2 S1020" /\
  published st (_set_fan_speed (VFloat 1) 3 st).2 = line "M106 P3 S255" /\
  _set_fan_speed (VFloat 0) 1 st = (Raise ZeroDivisionError, st) /\
  published st (_set_fan_speed (VInt 128) 1 st).2 = line "M106 P1 S128" /\
  _set_fan_speed (VInt 256) 1 st = (Raise ValueError, st) /\
  _set_fan_speed (VFloat 1.5) 1 st = (Raise ValueError, st).
Proof. repeat split. Qed.

Lemma process_ams_witness :
  let st' := (process_ams 1000 client_with_ams).2 in
  (exists unit_,
     ams_hub st' !! 0 = Some unit_ /\
     humidity unit_ = 4 /\
     filament_trays unit_ !! 0 = None /\
     filament_trays unit_ !! 1 = Some spool) /\
  ams_hub (process_ams 1000 client0).2 = ∅.
Proof.
  assert (Hready : is_ready client_with_ams = true) by (vm_compute; reflexivity).
  assert (Hfrag : _data client_with_ams !! "ams" = Some (VDict ams_members))
    by (vm_compute; reflexivity).
  assert (Hok : (process_ams 1000 client_with_ams).1 = Ok tt)
    by (vm_compute; reflexivity).
  assert (Hnone : _data client0 !! "ams" = None) by (vm_compute; reflexivity).
  assert (Hbits : no_ams (VDict ams_members) = Ok false) by reflexivity.
  assert (Hlist : dict_lookup ams_members "ams" = Some (VList [unit0])) by reflexivity.
  assert (Hunit : process_unit (Z.of_nat 0) unit0 = Ok (0, unit0_parsed)) by reflexivity.
  assert (Hat : [unit0] !! 0%nat = Some unit0) by reflexivity.
  assert (Htrays : py_get unit0 "tray" (VList []) = Ok (VList [empty_slot; loaded_slot]))
    by reflexivity.
  assert (Hid0 : id_of (Z.of_nat 0) empty_slot = Ok 0) by reflexivity.
  assert (Hid1 : id_of (Z.of_nat 1) loaded_slot = Ok 1) by reflexivity.
  assert (Hn0 : py_get empty_slot "n" VNone = Ok (VStr "")) by reflexivity.
  assert (Hn1 : py_get loaded_slot "n" VNone = Ok (VStr "GFA00")) by reflexivity.
  assert (Hspool : from_dict loaded_slot = Ok spool) by reflexivity.
  pose proof (process_ams_rebuilds_hub client_with_ams 1000 (or_introl Hready))
    as (_ & _ & _ & Hunits).
  destruct (Hunits ams_members [unit0] 0%nat unit0 0 unit0_parsed
              Hfrag Hbits Hlist Hok Hat Hunit) as [Hhub Hslots].
  { intros [|k'] v' u Hne Hk; [destruct (Hne eq_refl)|discriminate Hk]. }
  split.
  - exists unit0_parsed. split; [exact Hhub|]. split; [reflexivity|]. split.
    + refine (Hslots [empty_slot; loaded_slot] 0%nat empty_slot 0 (VStr "")
                Htrays eq_refl Hid0 Hn0 _).
      intros [|[|j']] t' i' Hne Hj Hi; [destruct (Hne eq_refl)| |discriminate Hj].
      injection Hj as <-. rewrite Hid1 in Hi. injection Hi as <-. discriminate.
    + destruct (Hslots [empty_slot; loaded_slot] 1%nat loaded_slot 1 (VStr "GFA00")
                  Htrays eq_refl Hid1 Hn1) as (ft & Hft & Hslot).
      { intros [|[|j']] t' i' Hne Hj Hi; [|destruct (Hne eq_refl)|discriminate Hj].
        injection Hj as <-. rewrite Hid0 in Hi. injection Hi as <-. discriminate. }
      rewrite Hspool in Hft. injection Hft as <-. exact Hslot.
  - pose proof (process_ams_rebuilds_hub client0 1000 (or_intror eq_refl))
      as (_ & Habsent & _).
    apply Habsent. exact Hnone.
Defined.

End Examples.

(* ================================================================== *)
(** * The further properties at concrete inputs *)
(* ================================================================== *)

Module MoreExamples.
Import Sample Fixtures.

Lemma merge_idempotent_witness :
  manual_update report2 (manual_update report2 client0).2 =
    manual_update report2 client0.
Proof.
  exact (merge_idempotent client0 report2 [("mc_percent", VInt 20)] eq_refl).
Defined.

Lemma reads_inside_interval_witness :
  let reads := [("mc_percent", VNone, 10); ("spd_lvl", VInt 1, 59)] in
  (read_all reads client0).2 = client0 /\
  (read_all reads client0).1 = Ok [VNone; VInt 1].
Proof.
  pose proof (reads_inside_interval client0
                [("mc_percent", VNone, 10); ("spd_lvl", VInt 1, 59)]) as H.
  destruct H as [Hst Hres].
  { constructor; [reflexivity|]. constructor; [reflexivity|constructor]. }
  split; [exact Hst|]. exact (Hres (or_intror eq_refl)).
Defined.

Lemma fan_speed_of_int_witness :
  published client0 (_set_fan_speed (VInt 128) 1 client0).2 =
    [("device/SN/request",
      VDict [("print", VDict [("command", VStr "gcode_line");
                              ("param", VStr ("M106 P1 S128" ++ LF))])])] /\
  _set_fan_speed (VInt 300) 1 client0 = (Raise ValueError, client0).
Proof.
  split.
  - refine (proj2 (proj2 (proj2 (proj1 (fan_speed_of_int client0 1 128) _)) eq_refl)).
    split; discriminate.
  - apply (proj1 (proj2 (fan_speed_of_int client0 1 300))). right. reflexivity.
Defined.

Lemma send_gcode_witness :
  send_gcode (VList [VStr "G28"; VStr "G1 X10"]) client0 =
    (do sent_ <- __send_gcode_line (String.concat LF ["G28"; "G1 X10"]);
     ret (Some sent_)) client0 /\
  send_gcode (VList [VStr "G28"; VStr "G1 X10Y5"]) client0 = (Raise ValueError, client0).
Proof.
  split.
  - apply (proj1 (send_gcode_all_or_nothing client0 ["G28"; "G1 X10"])).
    vm_compute. reflexivity.
  - apply (proj1 (proj2 (send_gcode_all_or_nothing client0 ["G28"; "G1 X10Y5"]))).
    vm_compute. reflexivity.
Defined.

Lemma start_print_checks_first_witness :
  start_print_3mf "job.3mf" VNone (VBool true) (VBool false) (VBool false)
    (VStr "textured_plate") (VBool true) (VList [VInt 0]) VNone client0 =
    (Raise TypeError, client0) /\
  start_print_3mf "job.3mf" (VInt 2) (VBool true) (VBool false) (VBool false)
    (VStr "textured_plate") (VBool true) (VInt 0) VNone client0 =
    (Raise TypeError, client0).
Proof.
  split.
  - apply (proj1 (start_print_checks_first client0 "job.3mf" VNone (VBool true)
             (VBool false) (VBool false) (VStr "textured_plate") (VBool true)
             (VList [VInt 0]) VNone)). reflexivity.
  - apply (proj1 (proj2 (start_print_checks_first client0 "job.3mf" (VInt 2) (VBool true)
             (VBool false) (VBool false) (VStr "textured_plate") (VBool true)
             (VInt 0) VNone)) 2); reflexivity.
Defined.

Lemma process_ams_idempotent_witness :
  let st1 := (process_ams 1000 client_with_ams).2 in
  ams_hub (process_ams 2000 st1).2 = ams_hub st1.
Proof.
  assert (Hready : is_ready client_with_ams = true) by (vm_compute; reflexivity).
  exact (proj1 (proj2 (process_ams_idempotent client_with_ams 1000 2000
                         (or_introl Hready)))).
Defined.

Lemma later_unit_wins_witness :
  ams_hub (process_units 0 [unit_a; unit_b] client0).2 !! 0 = Some (AMS_new 2 0).
Proof.
  assert (Hok : (process_units 0 [unit_a; unit_b] client0).1 = Ok tt)
    by (vm_compute; reflexivity).
  assert (Hunit : process_unit (Z.of_nat 1) unit_b = Ok (0, AMS_new 2 0)) by reflexivity.
  refine (later_unit_wins client0 [unit_a; unit_b] 1 unit_b 0 (AMS_new 2 0)
            Hok eq_refl Hunit _).
  intros [|[|[|k']]] v' u Hlt Hk; try (exfalso; lia); discriminate Hk.
Defined.

Lemma validator_margins_witness :
  is_valid_gcode ("  G1 X10" ++ LF) = is_valid_gcode "G1 X10" /\
  is_valid_gcode ("G1 X10" ++ ";" ++ "move") = is_valid_gcode "G1 X10".
Proof.
  split.
  - apply (proj2 (validator_ignores_comment_and_margins "G1 X10" "" "  " LF));
      repeat constructor.
  - exact (proj1 (validator_ignores_comment_and_margins "G1 X10" "move" "" "")).
Defined.

End MoreExamples.
